(** * nix-search: query construction, argument validation and result rendering

    A shallow embedding of [nix_search/client.py], [nix_search/cli.py] and
    [nix_search/formatter.py].  Python values are modelled by the inductive
    [value]; functions that can raise return an [outcome]; functions that
    write to a console, to standard output, to the pager or to the network
    return the list of those effects next to their outcome.

    Conventions.
    - A Python [str] is a [string]; one [ascii] stands for one character, so
      the development covers text whose code points are below 256.
    - A [dict] is an association list in insertion order.  [json.loads] and
      dict literals never hold a key twice, and neither do the dicts built
      here.
    - Python integers are unbounded: [Z].  A float is a [spec_float]; only
      its truth value is computed, its text is left to [repr].
    - Which exception class an ill-shaped response raises (TypeError,
      AttributeError, rich's NotRenderableError or MarkupError) is not
      tracked: [PyError].

    The libraries are taken at their interface.  [requests.post] is a
    function from the request to what came back; [sys.stdout.isatty()] is
    a boolean.  A [rich] console reads the text it is asked to print, and
    every cell of a table, as console markup, and raises on text it
    rejects: which text it accepts is [markup_ok], and a print that raises
    writes nothing.  What is printed is recorded as an effect and not
    rendered; [click.echo_via_pager] accepts the text it is handed. *)

From Stdlib Require Import String Ascii List ZArith Bool Lia SpecFloat DecimalString.
Import ListNotations.
Open Scope list_scope.
Open Scope string_scope.

(** ** Python values and the builtins the program uses *)

Module Py.

(** What [json.loads] returns, and what the query builder assembles. *)
#[warnings="-register-all"]
Inductive value : Type :=
| PNone
| PBool (b : bool)
| PInt (z : Z)
| PFloat (f : spec_float)
| PStr (s : string)
| PList (l : list value)
| PDict (kv : list (string * value)).

(** Exceptions that leave a function of the program. *)
Inductive exn : Type :=
| SystemExit (code : Z)                            (* sys.exit(code) *)
| UsageError (message : string)                    (* click.UsageError *)
| BadParameter (message : string) (param_hint : string) (* click.BadParameter *)
| PyError.                     (* an uncaught TypeError, AttributeError, ... *)

Inductive outcome (A : Type) : Type :=
| Return (a : A)
| Raise (e : exn).
Arguments Return {A} a.
Arguments Raise {A} e.

Definition bind {A B} (m : outcome A) (k : A -> outcome B) : outcome B :=
  match m with
  | Return a => k a
  | Raise e => Raise e
  end.

(** Effectful code: the effects performed so far, in order, and the outcome.
    Effects performed before an exception stay performed. *)
Definition eff (L A : Type) : Type := (list L * outcome A)%type.

Definition eret {L A} (a : A) : eff L A := ([], Return a).
Definition eraise {L A} (e : exn) : eff L A := ([], Raise e).
Definition emit {L} (x : L) : eff L unit := ([x], Return tt).
Definition lift {L A} (m : outcome A) : eff L A := ([], m).
Definition ebind {L A B} (m : eff L A) (k : A -> eff L B) : eff L B :=
  match m with
  | (out, Return a) => let (out', r) := k a in ((out ++ out')%list, r)
  | (out, Raise e) => (out, Raise e)
  end.

Definition effects {L A} (m : eff L A) : list L := fst m.
Definition result {L A} (m : eff L A) : outcome A := snd m.

Declare Scope py_scope.
Delimit Scope py_scope with py.
Notation "x <- m ;; k" := (bind m (fun x => k))
  (at level 61, m at next level, right associativity) : py_scope.
Notation "x <~ m ;; k" := (ebind m (fun x => k))
  (at level 61, m at next level, right associativity) : py_scope.
Notation "m ;;; k" := (ebind m (fun _ => k))
  (at level 61, right associativity) : py_scope.

(** [bool(v)] *)
Definition truthy (v : value) : bool :=
  match v with
  | PNone => false
  | PBool b => b
  | PInt z => negb (z =? 0)%Z
  | PFloat (S754_zero _) => false
  | PFloat _ => true
  | PStr s => negb (s =? "")
  | PList l => match l with [] => false | _ => true end
  | PDict kv => match kv with [] => false | _ => true end
  end.

(** [bool(s)] for [s : str], and for [s : str | None]. *)
Definition str_truthy (s : string) : bool := negb (s =? "").
Definition opt_truthy (s : option string) : bool :=
  match s with
  | Some s => str_truthy s
  | None => false
  end.

(** [a or b] for [a : str | None] and [b : str]. *)
Definition str_or (a : option string) (b : string) : string :=
  match a with
  | Some s => if str_truthy s then s else b
  | None => b
  end.

(** Lookup in a dict's items. *)
Fixpoint lookup (k : string) (kv : list (string * value)) : option value :=
  match kv with
  | [] => None
  | (k', v) :: rest => if k' =? k then Some v else lookup k rest
  end.

(** [d.get(k, default)]: an AttributeError when [d] is not a dict. *)
Definition get (d : value) (k : string) (default : value) : outcome value :=
  match d with
  | PDict kv => Return (match lookup k kv with Some v => v | None => default end)
  | _ => Raise PyError
  end.

(** [d[k] = v] on a dict's items: an existing key keeps its place. *)
Fixpoint setitem (kv : list (string * value)) (k : string) (v : value)
  : list (string * value) :=
  match kv with
  | [] => [(k, v)]
  | (k', v') :: rest =>
      if k' =? k then (k, v) :: rest else (k', v') :: setitem rest k v
  end.

(** [str(z)] for an int. *)
Definition str_of_int (z : Z) : string := NilZero.string_of_int (Z.to_int z).

(** [s[:n]] for a str. *)
Definition str_take (n : nat) (s : string) : string := substring 0 n s.

(** [list(s)] for a str: its one-character strings. *)
Fixpoint chars (s : string) : list string :=
  match s with
  | EmptyString => []
  | String c s' => String c EmptyString :: chars s'
  end.

(** [s.rstrip("/")] *)
Fixpoint rstrip_slash (s : string) : string :=
  match s with
  | EmptyString => EmptyString
  | String c s' =>
      match rstrip_slash s' with
      | EmptyString => if (c =? "/")%char then EmptyString else String c EmptyString
      | t => String c t
      end
  end.

(** [sep.join(items)] for a list of strs. *)
Fixpoint join (sep : string) (items : list string) : string :=
  match items with
  | [] => ""
  | [x] => x
  | x :: rest => x ++ sep ++ join sep rest
  end.

(** [len(v)]: a TypeError for None, bools and numbers. *)
Definition len (v : value) : outcome Z :=
  match v with
  | PStr s => Return (Z.of_nat (String.length s))
  | PList l => Return (Z.of_nat (List.length l))
  | PDict kv => Return (Z.of_nat (List.length kv))
  | _ => Raise PyError
  end.

(** What iterating over [v] yields: the items of a list, the characters of
    a str, the keys of a dict; a TypeError otherwise. *)
Definition iter (v : value) : outcome (list value) :=
  match v with
  | PList l => Return l
  | PStr s => Return (map PStr (chars s))
  | PDict kv => Return (map (fun p => PStr (fst p)) kv)
  | _ => Raise PyError
  end.

(** [v[:n]]: defined on lists and strs. *)
Definition slice_to (n : nat) (v : value) : outcome value :=
  match v with
  | PList l => Return (PList (firstn n l))
  | PStr s => Return (PStr (str_take n s))
  | _ => Raise PyError
  end.

(** The strs of a list of values: a TypeError in [join] when one is not a
    str. *)
Fixpoint strs (l : list value) : outcome (list string) :=
  match l with
  | [] => Return []
  | PStr s :: rest =>
      match strs rest with
      | Return ss => Return (s :: ss)
      | Raise e => Raise e
      end
  | _ :: _ => Raise PyError
  end.

(** [sep.join(v)] *)
Definition join_value (sep : string) (v : value) : outcome string :=
  match iter v with
  | Return items =>
      match strs items with
      | Return ss => Return (join sep ss)
      | Raise e => Raise e
      end
  | Raise e => Raise e
  end.

(** [[f(x) for x in l]] where [f] can raise. *)
Fixpoint traverse {A B} (f : A -> outcome B) (l : list A) : outcome (list B) :=
  match l with
  | [] => Return []
  | x :: rest =>
      match f x with
      | Return y =>
          match traverse f rest with
          | Return ys => Return (y :: ys)
          | Raise e => Raise e
          end
      | Raise e => Raise e
      end
  end.

(** What is taken from Python and from rich as given.
    - [repr] of floats and containers and [json.dumps(_, indent=2)]: the
      program only passes their text on.
    - [markup_ok text]: rich reads [text] as console markup without raising
      its MarkupError, which it raises on a closing tag that matches no
      open tag, as in "see [/etc/nixos]".
    - [markup_ok_number]: in "[dim]\[7][/dim] ..." the bracket after the
      backslash is escaped and a number opens no tag, so which number
      stands there makes no difference to rich. *)
Class Builtins : Type := {
  repr : value -> string;
  json_dumps_indent2 : value -> string;
  markup_ok : string -> bool;
  markup_ok_number : forall (i j : Z) (rest : string),
    markup_ok ("[dim]\[" ++ str_of_int i ++ "][/dim] " ++ rest)
    = markup_ok ("[dim]\[" ++ str_of_int j ++ "][/dim] " ++ rest)
}.

(** [str(v)], which is also what an f-string field does. *)
Definition str `{Builtins} (v : value) : string :=
  match v with
  | PNone => "None"
  | PBool true => "True"
  | PBool false => "False"
  | PInt z => str_of_int z
  | PStr s => s
  | PFloat _ | PList _ | PDict _ => repr v
  end.

End Py.

Import Py.
Local Open Scope py_scope.

(** ** client.py *)

Module Client.

(** API constants *)
Definition SCHEMA_VERSION : Z := 44.
Definition REQUEST_TIMEOUT : Z := 30.
Definition MAX_RESULTS : Z := 10000.  (* Elasticsearch limit *)

(** Default credentials *)
Definition DEFAULT_USERNAME : string := "aWVSALXpZv".
Definition DEFAULT_PASSWORD : string := "X8gPHnzL52wFEekuxsfQ9cSh".

Record NixOSSearchClient : Type := {
  base_url : string;
  username : string;
  password : string
}.

(** [NixOSSearchClient.__init__] *)
Definition __init__ (base_url : string) (username password : option string)
  : NixOSSearchClient :=
  {| base_url := rstrip_slash base_url;
     username := str_or username DEFAULT_USERNAME;
     password := str_or password DEFAULT_PASSWORD |}.

(** [{"wildcard": {field: f"*{term}*"}}] *)
Definition wildcard (field term : string) : value :=
  PDict [("wildcard", PDict [(field, PStr ("*" ++ term ++ "*"))])].

(** [NixOSSearchClient._build_query]; the method does not read [self].
    [must_clauses] is threaded through the four [if]s in source order. *)
Definition _build_query (query : string)
    (name program version platform : option string) (search_type : string)
  : value :=
  let must_clauses : list value := [] in
  (* Default multi-match query (like the web interface) *)
  let must_clauses :=
    if str_truthy query then
      (must_clauses ++
       [PDict [("dis_max", PDict [("queries", PList [
          PDict [("multi_match", PDict [
            ("query", PStr query);
            ("type", PStr "cross_fields");
            ("fields",
             if search_type =? "packages" then
               PList [PStr "package_attr_name^9";
                      PStr "package_attr_name.*^5.3999999999999995";
                      PStr "package_programs^9";
                      PStr "package_programs.*^5.3999999999999995";
                      PStr "package_pname^6";
                      PStr "package_pname.*^3.5999999999999996";
                      PStr "package_description^1.3";
                      PStr "package_description.*^0.78";
                      PStr "package_longDescription^1";
                      PStr "package_longDescription.*^0.6";
                      PStr "flake_name^0.5"]
             else
               PList [PStr "option_name^2"; PStr "option_description"])])]])])]])%list
    else must_clauses in
  (* Specific field searches *)
  let must_clauses :=
    match name with
    | Some name =>
        if str_truthy name
        then (must_clauses ++ [wildcard "package_attr_name" name])%list
        else must_clauses
    | None => must_clauses
    end in
  let must_clauses :=
    match program with
    | Some program =>
        if str_truthy program
        then (must_clauses ++ [wildcard "package_programs" program])%list
        else must_clauses
    | None => must_clauses
    end in
  let must_clauses :=
    match version with
    | Some version =>
        if str_truthy version
        then (must_clauses ++ [wildcard "package_pversion" version])%list
        else must_clauses
    | None => must_clauses
    end in
  let must_clauses :=
    match platform with
    | Some platform =>
        if str_truthy platform
        then (must_clauses ++
              [PDict [("term", PDict [("package_platforms", PStr platform)])]])%list
        else must_clauses
    | None => must_clauses
    end in
  (* Build final query *)
  PDict [("query", PDict [("bool", PDict [
    ("must", PList (match must_clauses with
                    | [] => [PDict [("match_all", PDict [])]]
                    | _ => must_clauses
                    end))])])].

(** Lines 127-139 of [search]: the index for a channel and a search type. *)
Definition search_index (channel search_type : string) : string :=
  if search_type =? "flakes" then
    "latest-" ++ str_of_int SCHEMA_VERSION ++ "-nixos-flakes"
  else if search_type =? "options" then
    if channel =? "unstable" then
      "latest-" ++ str_of_int SCHEMA_VERSION ++ "-nixos-unstable-options"
    else
      "latest-" ++ str_of_int SCHEMA_VERSION ++ "-nixos-" ++ channel ++ "-options"
  else (* packages *)
    if channel =? "unstable" then
      "latest-" ++ str_of_int SCHEMA_VERSION ++ "-nixos-unstable"
    else
      "latest-" ++ str_of_int SCHEMA_VERSION ++ "-nixos-" ++ channel.

(** Line 141 of [search]. *)
Definition search_endpoint (self : NixOSSearchClient) (index : string) : string :=
  base_url self ++ "/backend/" ++ index ++ "/_search".

(** Lines 143-155 of [search]: the request body. *)
Definition search_body (query : string)
    (name program version platform : option string) (search_type : string)
    (size from_ : Z) : value :=
  match _build_query query name program version platform search_type with
  | PDict es_query =>
      let es_query := setitem es_query "size" (PInt size) in
      let es_query := setitem es_query "from" (PInt from_) in
      (* Add sorting *)
      let es_query := setitem es_query "sort"
        (if search_type =? "packages" then
           PList [PDict [("_score", PStr "desc")];
                  PDict [("package_attr_name", PStr "desc")]]
         else
           PList [PDict [("_score", PStr "desc")]]) in
      PDict es_query
  | other => other  (* not reached: [_build_query] returns a dict *)
  end.

(** What [requests.post(...)], [raise_for_status()] and [response.json()]
    come to: a decoded body, a [requests.exceptions.RequestException]
    (connection error, timeout, status of 400 or more), or a
    [json.JSONDecodeError] that is not a [RequestException]. *)
Inductive http_result : Type :=
| Response (body : value)
| RequestException (e : string)
| JSONDecodeError (e : string).

(** The network: endpoint, JSON body, basic-auth pair and timeout. *)
Definition transport : Type :=
  string -> value -> string * string -> Z -> http_result.

Inductive effect : Type :=
| Post (endpoint : string) (body : value) (auth : string * string) (timeout : Z)
| Stderr (line : string).

(** [NixOSSearchClient.search] *)
Definition search (net : transport) (self : NixOSSearchClient)
    (query : string) (name program version platform : option string)
    (channel search_type : string) (size from_ : Z) : eff effect value :=
  let index := search_index channel search_type in
  let endpoint := search_endpoint self index in
  let es_query :=
    search_body query name program version platform search_type size from_ in
  let auth := (username self, password self) in
  emit (Post endpoint es_query auth REQUEST_TIMEOUT) ;;;
  match net endpoint es_query auth REQUEST_TIMEOUT with
  | Response body => eret body
  | RequestException e =>
      emit (Stderr ("Error making request: " ++ e)) ;;; eraise (SystemExit 1)
  | JSONDecodeError e =>
      emit (Stderr ("Error parsing JSON response: " ++ e)) ;;; eraise (SystemExit 1)
  end.

End Client.

(** ** formatter.py *)

Module Formatter.

(** Display constants *)
Definition MAX_PROGRAMS_DISPLAY : nat := 10.
Definition MAX_DESCRIPTION_LENGTH : nat := 150.
Definition MAX_OPTION_DESCRIPTION_LENGTH : nat := 200.
Definition MAX_DEFAULT_LENGTH : nat := 100.
Definition MAX_EXAMPLE_LENGTH : nat := 100.
Definition PAGER_THRESHOLD : Z := 10.

(** A [rich.table.Table] built with [show_header=False, box=None,
    padding=(0, 1)] and the two columns "Field" (width 12, in [field_style])
    and "Value" (overflow "fold"): what varies is the style of the first
    column and the rows. *)
Record Table : Type := {
  field_style : string;
  rows : list (string * string)
}.

Definition new_table (style : string) : Table :=
  {| field_style := style; rows := [] |}.

(** [table.add_row(field, text)] with two strs. *)
Definition add_row (t : Table) (field text : string) : Table :=
  {| field_style := field_style t; rows := (rows t ++ [(field, text)])%list |}.

(** The description cell: [d[:limit] + "..." if len(d) > limit else d],
    then handed to [add_row].  For a value that is not a str one of [len],
    the slice, [+ "..."] or [add_row] (rich's NotRenderableError) raises. *)
Definition description_cell (limit : nat) (description : value) : outcome string :=
  match description with
  | PStr d =>
      Return (if (limit <? String.length d)%nat
              then str_take limit d ++ "..."
              else d)
  | _ => Raise PyError
  end.

Section WithBuiltins.
Context `{Builtins}.

(** [format_package_result_table] *)
Definition format_package_result_table (source : value) (index : Z)
    (details : bool) : outcome Table :=
  attr_name <- get source "package_attr_name" (PStr "unknown") ;;
  version <- get source "package_pversion" (PStr "") ;;
  description <- get source "package_description" (PStr "") ;;
  programs <- get source "package_programs" (PList []) ;;
  (* Create table *)
  let table := new_table "bold cyan" in
  (* Package name and version using markup *)
  let name_markup :=
    if truthy version then
      "[dim]\[" ++ str_of_int index ++ "][/dim] [bold cyan]" ++ str attr_name
        ++ "[/bold cyan] [dim]@[/dim] [yellow]" ++ str version ++ "[/yellow]"
    else
      "[dim]\[" ++ str_of_int index ++ "][/dim] [bold cyan]" ++ str attr_name
        ++ "[/bold cyan]" in
  let table := add_row table "Package" name_markup in
  (* Programs *)
  table <-
    (if truthy programs then
       shown <- slice_to MAX_PROGRAMS_DISPLAY programs ;;
       programs_str <- join_value " " shown ;;
       n <- len programs ;;
       let programs_str :=
         if (Z.of_nat MAX_PROGRAMS_DISPLAY <? n)%Z
         then programs_str ++ " ... (+"
                ++ str_of_int (n - Z.of_nat MAX_PROGRAMS_DISPLAY) ++ " more)"
         else programs_str in
       Return (add_row table "Programs" ("[green]" ++ programs_str ++ "[/green]"))
     else Return table) ;;
  (* Description *)
  table <-
    (if truthy description then
       desc <- description_cell MAX_DESCRIPTION_LENGTH description ;;
       Return (add_row table "Description" desc)
     else Return table) ;;
  table <-
    (if details then
       (* Additional details *)
       homepage <- get source "package_homepage" PNone ;;
       let table :=
         if truthy homepage then
           let homepage_str :=
             match homepage with
             | PList urls =>
                 (* Make each URL clickable *)
                 join " " (map (fun url =>
                   "[link=" ++ str url ++ "]" ++ str url ++ "[/link]") urls)
             | _ => "[link=" ++ str homepage ++ "]" ++ str homepage ++ "[/link]"
             end in
           add_row table "Homepage" homepage_str
         else table in
       license_name <- get source "package_license_set" PNone ;;
       table <-
         (if truthy license_name then
            first3 <- slice_to 3 license_name ;;
            licenses <- join_value ", " first3 ;;
            Return (add_row table "License" ("[magenta]" ++ licenses ++ "[/magenta]"))
          else Return table) ;;
       maintainers <- get source "package_maintainers" PNone ;;
       (if truthy maintainers then
          first3 <- slice_to 3 maintainers ;;
          ms <- iter first3 ;;
          maint_names <- traverse (fun m =>
            email <- get m "email" (PStr "") ;; get m "name" email) ms ;;
          maint_str <- join_value ", " (PList maint_names) ;;
          Return (add_row table "Maintainers" ("[cyan]" ++ maint_str ++ "[/cyan]"))
        else Return table)
     else Return table) ;;
  (* Installation commands with syntax highlighting *)
  let table := add_row table "Install"
    ("[dim]nix-env -iA nixpkgs." ++ str attr_name ++ "[/dim]") in
  let table := add_row table ""
    ("[dim]nix profile install nixpkgs#" ++ str attr_name ++ "[/dim]") in
  Return table.

(** [format_option_result_table] *)
Definition format_option_result_table (source : value) (index : Z)
    (details : bool) : outcome Table :=
  option_name <- get source "option_name" (PStr "unknown") ;;
  option_type <- get source "option_type" (PStr "") ;;
  description <- get source "option_description" (PStr "") ;;
  default <- get source "option_default" PNone ;;
  example <- get source "option_example" PNone ;;
  (* Create table *)
  let table := new_table "bold magenta" in
  (* Option name using markup *)
  let name_markup :=
    "[dim]\[" ++ str_of_int index ++ "][/dim] [bold magenta]" ++ str option_name
      ++ "[/bold magenta]" in
  let table := add_row table "Option" name_markup in
  let table :=
    if truthy option_type
    then add_row table "Type" ("[cyan]" ++ str option_type ++ "[/cyan]")
    else table in
  table <-
    (if truthy description then
       desc <- description_cell MAX_OPTION_DESCRIPTION_LENGTH description ;;
       Return (add_row table "Description" desc)
     else Return table) ;;
  let table :=
    if details then
      let table :=
        if truthy default then
          let default_str := str_take MAX_DEFAULT_LENGTH (str default) in
          add_row table "Default" ("[yellow]" ++ default_str ++ "[/yellow]")
        else table in
      if truthy example then
        let example_str := str_take MAX_EXAMPLE_LENGTH (str example) in
        add_row table "Example" ("[green]" ++ example_str ++ "[/green]")
      else table
    else table in
  Return table.

(** What a [rich.console.Console] is asked to print: a markup str, a
    table, or nothing ([console.print()], one empty line). *)
Inductive renderable : Type :=
| Markup (text : string)
| Grid (table : Table)
| Blank.

Definition nl : string := String (ascii_of_nat 10) EmptyString.

(** Whether rich prints [r] rather than raises.  It reads a str, and each
    cell of a table, as markup when it renders it.  The text put to
    [markup_ok] is the text that carries data: the second column of a
    table and the "Found" line.  The labels of the first column are
    literals of the program, which rich accepts. *)
Definition printable (r : renderable) : bool :=
  match r with
  | Markup text => markup_ok text
  | Grid table => forallb (fun row => markup_ok (snd row)) (rows table)
  | Blank => true
  end.

(** [console.print(r)]: when rich raises, nothing of [r] is written. *)
Definition console_print (r : renderable) : eff renderable unit :=
  if printable r then emit r else eraise PyError.

(** The [for i, hit in enumerate(hits, 1)] loop of [_render_results], from
    position [i] on; [n] is [len(hits)].  [None] is the [continue] branch;
    [console.print()] is one empty line. *)
Fixpoint _render_results_loop (items : list value) (i n : Z)
    (search_type : string) (details compact : bool) : eff renderable unit :=
  match items with
  | [] => eret tt
  | hit :: rest =>
      source <~ lift (get hit "_source" (PDict [])) ;;
      table <~ lift
        (if (search_type =? "packages") || (search_type =? "flakes") then
           t <- format_package_result_table source i details ;; Return (Some t)
         else if search_type =? "options" then
           t <- format_option_result_table source i details ;; Return (Some t)
         else Return None) ;;
      match table with
      | Some table =>
          console_print (Grid table) ;;;
          (* In compact mode, don't add spacing between results *)
          (if negb compact && (i <? n)%Z then emit Blank else eret tt) ;;;
          _render_results_loop rest (i + 1) n search_type details compact
      | None => _render_results_loop rest (i + 1) n search_type details compact
      end
  end.

(** [_render_results]: what the console is asked to print, in order. *)
Definition _render_results (hits : value) (search_type : string)
    (total_value : value) (details compact : bool) : eff renderable unit :=
  n <~ lift (len hits) ;;
  console_print
    (Markup (nl ++ "[bold green]Found " ++ str total_value
               ++ " results[/bold green] [dim](showing " ++ str_of_int n
               ++ ")[/dim]" ++ nl)) ;;;
  items <~ lift (iter hits) ;;
  _render_results_loop items 1 n search_type details compact.

(** What reaches the pager: the JSON text, or the contents of the
    [StringIO] buffer a [Console(file=buffer, force_terminal=True)] wrote. *)
Inductive pager_content : Type :=
| Text (s : string)
| Rendered (items : list renderable).

Inductive output : Type :=
| Print (text : string)              (* print(text) *)
| ConsolePrint (r : renderable)      (* Console().print(...), on stdout *)
| Pager (content : pager_content).   (* _output_with_pager(content) *)

(** [list(reversed(hits))] *)
Definition reversed (hits : value) : outcome value :=
  items <- iter hits ;; Return (PList (rev items)).

(** Line 185: [data.get("hits", {}).get("hits", [])] *)
Definition response_hits (data : value) : outcome value :=
  h <- get data "hits" (PDict []) ;; get h "hits" (PList []).

(** Lines 186-187: [total] and [total_value]. *)
Definition response_total_value (data : value) : outcome value :=
  h <- get data "hits" (PDict []) ;;
  total <- get h "total" (PDict []) ;;
  match total with
  | PDict _ => get total "value" (PInt 0)
  | _ => Return total
  end.

(** [print_results]; [isatty] is what [sys.stdout.isatty()] answers.  The
    "No results found." notice is a literal that rich accepts. *)
Definition print_results (isatty : bool) (data : value) (search_type : string)
    (details compact json_output reverse : bool) (use_pager : option bool)
  : eff output unit :=
  if json_output then
    let output := json_dumps_indent2 data in
    match use_pager with
    | Some true => emit (Pager (Text output))
    | _ => emit (Print output)
    end
  else
    hits <~ lift (response_hits data) ;;
    total_value <~ lift (response_total_value data) ;;
    if negb (truthy hits) then
      emit (ConsolePrint (Markup "[yellow]No results found.[/yellow]"))
    else
      (* Reverse the order if requested *)
      hits <~ lift (if reverse then reversed hits else Return hits) ;;
      (* Determine if we should use pager *)
      should_use_pager <~ lift (match use_pager with
                                | Some b => Return b
                                | None =>
                                    n <- len hits ;;
                                    Return (PAGER_THRESHOLD <? n)%Z
                                end) ;;
      if should_use_pager && isatty then
        (* Render to string buffer for pager *)
        match _render_results hits search_type total_value details compact with
        | (string_buffer, Return _) => emit (Pager (Rendered string_buffer))
        | (_, Raise e) => eraise e
        end
      else
        (* Direct output (no pager) *)
        let (printed, r) :=
          _render_results hits search_type total_value details compact in
        (map ConsolePrint printed, r).

End WithBuiltins.

End Formatter.

(** ** cli.py *)

Module Cli.

Import Client Formatter.

(** Everything [main] does that is visible from outside, in order. *)
Inductive event : Type :=
| Construct (client : NixOSSearchClient)  (* NixOSSearchClient(base_url=...) *)
| ClientEffect (e : Client.effect)
| Output (o : Formatter.output).

Definition via {L L' A} (f : L -> L') (m : eff L A) : eff L' A :=
  (map f (fst m), snd m).

(** The four checks at the head of [main]. *)
Definition validate (query : string) (name program version : option string)
    (size from_ : Z) : outcome unit :=
  if negb (str_truthy query || opt_truthy name || opt_truthy program
           || opt_truthy version) then
    Raise (UsageError
      "At least one of: QUERY, --name, --program, or --version must be specified")
  (* Validate pagination parameters *)
  else if (size <=? 0)%Z then
    Raise (BadParameter "size must be greater than 0" "--size")
  else if (from_ <? 0)%Z then
    Raise (BadParameter "from must be non-negative" "--from")
  else if (MAX_RESULTS <? from_ + size)%Z then
    Raise (BadParameter
      ("from + size cannot exceed " ++ str_of_int MAX_RESULTS
         ++ " (Elasticsearch limit)") "--from/--size")
  else Return tt.

Section WithBuiltins.
Context `{Builtins}.

(** [main], after click has parsed the command line. *)
Definition main (net : transport) (isatty : bool)
    (query : string) (name program version platform : option string)
    (channel search_type : string) (size from_ : Z)
    (details compact reverse json_output : bool) (pager : option bool)
    (base_url : string) : eff event unit :=
  lift (validate query name program version size from_) ;;;
  let client := __init__ base_url None None in
  emit (Construct client) ;;;
  data <~ via ClientEffect
            (search net client query name program version platform
               channel search_type size from_) ;;
  via Output
    (print_results isatty data search_type details compact json_output
       reverse pager).

End WithBuiltins.

(** The exit status of the process.  click runs [main] in standalone mode:
    a normal return exits with 0, a [UsageError] (of which [BadParameter]
    is a subclass) is shown and exits with its [exit_code], 2;
    [sys.exit(n)] exits with [n]; any other exception ends the interpreter
    with status 1. *)
Definition exit_status (r : outcome unit) : Z :=
  match r with
  | Return _ => 0
  | Raise (SystemExit code) => code
  | Raise (UsageError _) => 2
  | Raise (BadParameter _ _) => 2
  | Raise PyError => 1
  end.

Definition is_usage_error (r : outcome unit) : bool :=
  match r with
  | Raise (UsageError _) | Raise (BadParameter _ _) => true
  | _ => false
  end.

End Cli.

(** ** cli.py: shell completion *)

Module Completion.

(** [s.startswith(incomplete)] *)
Definition startswith (s incomplete : string) : bool := prefix incomplete s.

(** The [platforms] list of [complete_platforms]. *)
Definition platforms : list string :=
  ["x86_64-linux"; "aarch64-linux"; "aarch64-darwin"; "x86_64-darwin";
   "i686-linux"; "armv7l-linux"; "riscv64-linux"; "powerpc64le-linux"].

(** [complete_platforms]; [ctx] and [param] are not read. *)
Definition complete_platforms (incomplete : string) : list string :=
  filter (fun p => startswith p incomplete) platforms.

(** The [channels] list of [complete_channels]. *)
Definition channels : list string :=
  ["unstable"; "24.11"; "24.05"; "23.11"; "23.05"].

(** [complete_channels]; [ctx] and [param] are not read. *)
Definition complete_channels (incomplete : string) : list string :=
  filter (fun c => startswith c incomplete) channels.

End Completion.

(** ** Reading a request body and a run's effects *)

Module Observe.

Import Client Formatter Cli.

(** [es_query["query"]["bool"]["must"]] *)
Definition must_clauses (es_query : value) : list value :=
  match (q <- get es_query "query" PNone ;;
         b <- get q "bool" PNone ;;
         get b "must" PNone) with
  | Return (PList clauses) => clauses
  | _ => []
  end.

(** Whether a clause is a dict with the key [kind]. *)
Definition has_kind (kind : string) (clause : value) : bool :=
  match clause with
  | PDict kv => match lookup kind kv with Some _ => true | None => false end
  | _ => false
  end.

Definition dis_max_clauses (es_query : value) : list value :=
  filter (has_kind "dis_max") (must_clauses es_query).

Definition wildcard_clauses (es_query : value) : list value :=
  filter (has_kind "wildcard") (must_clauses es_query).

(** [clause["dis_max"]["queries"]]: the queries of a dis_max clause. *)
Definition dis_max_queries (clause : value) : list value :=
  match (d <- get clause "dis_max" PNone ;; get d "queries" PNone) with
  | Return (PList queries) => queries
  | _ => []
  end.

(** [q["multi_match"]["fields"]] *)
Definition multi_match_fields (q : value) : option value :=
  match (m <- get q "multi_match" PNone ;; get m "fields" PNone) with
  | Return PNone => None
  | Return fields => Some fields
  | Raise _ => None
  end.

(** The field lists of every multi-match of every dis_max clause. *)
Definition free_text_fields (es_query : value) : list (option value) :=
  flat_map (fun c => map multi_match_fields (dis_max_queries c))
           (dis_max_clauses es_query).

(** [body["sort"]] *)
Definition sort_of (body : value) : option value :=
  match body with
  | PDict kv => lookup "sort" kv
  | _ => None
  end.

(** The weighted field list for packages, as [_build_query] spells it. *)
Definition package_fields : value :=
  PList [PStr "package_attr_name^9";
         PStr "package_attr_name.*^5.3999999999999995";
         PStr "package_programs^9";
         PStr "package_programs.*^5.3999999999999995";
         PStr "package_pname^6";
         PStr "package_pname.*^3.5999999999999996";
         PStr "package_description^1.3";
         PStr "package_description.*^0.78";
         PStr "package_longDescription^1";
         PStr "package_longDescription.*^0.6";
         PStr "flake_name^0.5"].

Definition option_fields : value :=
  PList [PStr "option_name^2"; PStr "option_description"].

(** The clause a provided filter contributes: none when the filter is
    [None] or empty, else [{"wildcard": {field: "*" + term + "*"}}]. *)
Definition provided (field : string) (filter : option string) : list value :=
  match filter with
  | Some term =>
      if str_truthy term
      then [PDict [("wildcard", PDict [(field, PStr ("*" ++ term ++ "*"))])]]
      else []
  | None => []
  end.

(** The JSON bodies handed to [requests.post], in order. *)
Definition posted (effs : list Client.effect) : list value :=
  flat_map (fun e => match e with Post _ body _ _ => [body] | Stderr _ => [] end)
           effs.

(** The endpoints [requests.post] was called on, in order. *)
Definition endpoints (effs : list Client.effect) : list string :=
  flat_map (fun e => match e with Post url _ _ _ => [url] | Stderr _ => [] end)
           effs.

(** Whether the pager was invoked. *)
Definition pager_invoked (out : list output) : bool :=
  existsb (fun o => match o with Pager _ => true | _ => false end) out.

(** What was put on display, in order: what a console printed on stdout
    and what a console rendered into the buffer handed to the pager. *)
Definition shown (out : list output) : list renderable :=
  flat_map (fun o => match o with
                     | ConsolePrint r => [r]
                     | Pager (Rendered items) => items
                     | _ => []
                     end) out.

(** The tables among what was displayed. *)
Definition tables (items : list renderable) : list Table :=
  flat_map (fun r => match r with Grid t => [t] | _ => [] end) items.

(** The rows of a table with a given label in the first column. *)
Definition rows_labelled (label : string) (t : Table) : list (string * string) :=
  filter (fun row => fst row =? label) (rows t).

(** An exception that is none of the program's own: neither [sys.exit]
    nor a click usage error. *)
Definition only_py {A} (o : outcome A) : Prop :=
  match o with
  | Raise e => e = PyError
  | Return _ => True
  end.

(** Builtins to run examples with: [repr] and [json.dumps] answer fixed
    texts. *)
Definition sample_builtins : Builtins :=
  {| repr := fun _ => "<repr>";
     json_dumps_indent2 := fun _ => "<json>";
     markup_ok := fun _ => true;
     markup_ok_number := fun _ _ _ => eq_refl |}.

(** Builtins to run examples with in which rich rejects one text, for its
    closing tag without an open one. *)
Definition wary_builtins : Builtins :=
  {| repr := fun _ => "<repr>";
     json_dumps_indent2 := fun _ => "<json>";
     markup_ok := fun text => negb (text =? "Rebuild from [/etc/nixos] now");
     markup_ok_number := fun _ _ _ => eq_refl |}.

(** None of the four search terms is present. *)
Definition no_term (query : string) (name program version : option string)
  : Prop :=
  str_truthy query = false /\ opt_truthy name = false
  /\ opt_truthy program = false /\ opt_truthy version = false.

(** The inputs the four checks are meant to turn away. *)
Definition rejected (query : string) (name program version : option string)
    (size from_ : Z) : Prop :=
  no_term query name program version
  \/ (size <= 0)%Z \/ (from_ < 0)%Z \/ (from_ + size > 10000)%Z.

(** Handing what [_render_results] produced to the pager ([page]) or to
    the console on stdout.  An exception while rendering into the buffer
    leaves before the pager is called. *)
Definition deliver (page : bool) (r : eff renderable unit) : eff output unit :=
  if page then
    match r with
    | (buffer, Return _) => ([Pager (Rendered buffer)], Return tt)
    | (_, Raise e) => ([], Raise e)
    end
  else (map ConsolePrint (fst r), snd r).

(** The effective pager choice of table mode: the flag when given, else
    whether there are more than ten hits; and stdout must be a terminal. *)
Definition paging (use_pager : option bool) (count : nat) (isatty : bool) : bool :=
  match use_pager with
  | Some b => b
  | None => (10 <? Z.of_nat count)%Z
  end && isatty.

(** The "Found ... results" line of [_render_results]. *)
Definition found_line `{Builtins} (total_value : value) (count : nat) : renderable :=
  Markup (nl ++ "[bold green]Found " ++ str total_value
             ++ " results[/bold green] [dim](showing "
             ++ str_of_int (Z.of_nat count) ++ ")[/dim]" ++ nl).

(** The table of the hit at position [i], as the loop of [_render_results]
    makes it; [None] for a search type that has no formatter. *)
Definition hit_table `{Builtins} (search_type : string) (details : bool)
    (i : Z) (hit : value) : outcome (option Table) :=
  source <- get hit "_source" (PDict []) ;;
  if (search_type =? "packages") || (search_type =? "flakes") then
    t <- format_package_result_table source i details ;; Return (Some t)
  else if search_type =? "options" then
    t <- format_option_result_table source i details ;; Return (Some t)
  else Return None.

(** The tables of a sequence of hits numbered from [i], in that order. *)
Fixpoint hit_tables `{Builtins} (search_type : string) (details : bool)
    (i : Z) (hits : list value) : outcome (list Table) :=
  match hits with
  | [] => Return []
  | hit :: rest =>
      t <- hit_table search_type details i hit ;;
      ts <- hit_tables search_type details (i + 1) rest ;;
      Return (match t with Some t => t :: ts | None => ts end)
  end.

(** Whether a run returned rather than raised. *)
Definition completes {A} (o : outcome A) : bool :=
  match o with
  | Return _ => true
  | Raise _ => false
  end.

Definition is_str (v : value) : bool :=
  match v with PStr _ => true | _ => false end.

Definition is_dict (v : value) : bool :=
  match v with PDict _ => true | _ => false end.

(** [d.get(k, default)] where [d] is a dict. *)
Definition field (d : value) (k : string) (default : value) : value :=
  match get d k default with
  | Return v => v
  | Raise _ => default
  end.

(** A description the formatters accept: a falsy value gives no row, a
    str gives one; anything else raises. *)
Definition cell_ok (v : value) : bool := negb (truthy v) || is_str v.

(** A value of which [sep.join(v[:n])] can be taken: a str, or a list
    whose first [n] items are strs; a falsy value is not joined at all. *)
Definition joinable (n : nat) (v : value) : bool :=
  negb (truthy v)
  || match v with
     | PStr _ => true
     | PList l => forallb is_str (firstn n l)
     | _ => false
     end.

(** [m.get("name", m.get("email", ""))] is defined and a str. *)
Definition maintainer_ok (m : value) : bool :=
  is_dict m && is_str (field m "name" (field m "email" (PStr ""))).

Definition maintainers_ok (v : value) : bool :=
  negb (truthy v)
  || match v with
     | PList l => forallb maintainer_ok (firstn 3 l)
     | _ => false
     end.

(** The sources [format_package_result_table] returns on. *)
Definition package_source_ok (details : bool) (source : value) : bool :=
  is_dict source
  && joinable 10 (field source "package_programs" (PList []))
  && cell_ok (field source "package_description" (PStr ""))
  && (negb details
      || (joinable 3 (field source "package_license_set" PNone)
          && maintainers_ok (field source "package_maintainers" PNone))).

(** The sources [format_option_result_table] returns on. *)
Definition option_source_ok (source : value) : bool :=
  is_dict source && cell_ok (field source "option_description" (PStr "")).

(** The hits whose table the loop of [_render_results] gets built. *)
Definition hit_formats (search_type : string) (details : bool) (hit : value)
  : bool :=
  is_dict hit
  && (if (search_type =? "packages") || (search_type =? "flakes") then
        package_source_ok details (field hit "_source" (PDict []))
      else if search_type =? "options" then
        option_source_ok (field hit "_source" (PDict []))
      else true).

(** Rich accepts the cells of the hit's table.  The table is taken at
    position 1: by [markup_ok_number] the position makes no difference. *)
Definition hit_prints `{Builtins} (search_type : string) (details : bool)
    (hit : value) : bool :=
  match hit_table search_type details 1 hit with
  | Return (Some table) => printable (Grid table)
  | _ => true
  end.

(** The hits the loop of [_render_results] gets past: the table is built
    and rich prints it. *)
Definition hit_ok `{Builtins} (search_type : string) (details : bool)
    (hit : value) : bool :=
  hit_formats search_type details hit && hit_prints search_type details hit.

(** A response with the given hits and total, as the backend shapes it. *)
Definition response (total : Z) (hits : list value) : value :=
  PDict [("hits", PDict [("total", PDict [("value", PInt total)]);
                         ("hits", PList hits)])].

Definition by_score : value := PDict [("_score", PStr "desc")].
Definition by_attr_name : value := PDict [("package_attr_name", PStr "desc")].

End Observe.

(** ** Reading a run of [main], a table and a string *)

Module Views.

Import Client Formatter Cli Observe.

(** The calls of [requests.post] in a run: endpoint, body, credentials
    and timeout. *)
Definition requests (evs : list event)
  : list (string * value * (string * string) * Z) :=
  flat_map (fun ev => match ev with
                      | ClientEffect (Post url body auth timeout) =>
                          [(url, body, auth, timeout)]
                      | _ => []
                      end) evs.





(** Whether the four checks of [main] let the input through. *)
Definition accepted (query : string) (name program version : option string)
    (size from_ : Z) : bool :=
  completes (validate query name program version size from_).

(** The first column of a table, top to bottom. *)
Definition labels (t : Table) : list string := map fst (rows t).

(** [l] with [sep] between consecutive items. *)
Fixpoint intersperse {A} (sep : A) (l : list A) : list A :=
  match l with
  | [] => []
  | [x] => [x]
  | x :: rest => x :: sep :: intersperse sep rest
  end.

(** The last character of a string. *)
Fixpoint last_char (s : string) : option ascii :=
  match s with
  | EmptyString => None
  | String c EmptyString => Some c
  | String _ s' => last_char s'
  end.

(** [k] slashes. *)
Fixpoint slashes (k : nat) : string :=
  match k with
  | O => ""
  | S k' => String "/" (slashes k')
  end.

(** How many of the five inputs of [_build_query] are truthy. *)
Definition given (query : string) (name program version platform : option string)
  : nat :=
  List.length (filter (fun b : bool => b)
                 [str_truthy query; opt_truthy name; opt_truthy program;
                  opt_truthy version; opt_truthy platform]).

(** The [{"term": {"package_platforms": platform}}] clause. *)
Definition platform_term (platform : string) : value :=
  PDict [("term", PDict [("package_platforms", PStr platform)])].

(** The one call of [requests.post] a run of [main] can make. *)
Definition the_request (base_url : string) (query : string)
    (name program version platform : option string)
    (channel search_type : string) (size from_ : Z)
  : string * value * (string * string) * Z :=
  (rstrip_slash base_url ++ "/backend/" ++ search_index channel search_type
     ++ "/_search",
   search_body query name program version platform search_type size from_,
   (DEFAULT_USERNAME, DEFAULT_PASSWORD),
   30%Z).

(** What the network answers to a call. *)
Definition answer (net : transport)
    (call : string * value * (string * string) * Z) : http_result :=
  match call with
  | (url, body, auth, timeout) => net url body auth timeout
  end.

(** [l] when [b] holds, nothing otherwise. *)
Definition when {A} (b : bool) (l : list A) : list A := if b then l else [].

(** A description cut to [limit] characters, with the ellipsis. *)
Definition cut (limit : nat) (d : string) : string :=
  if (limit <? String.length d)%nat then str_take limit d ++ "..." else d.

(** The Programs cell for a list of program names: the first ten, and how
    many more there are. *)
Definition programs_cell (programs : list string) : string :=
  "[green]"
    ++ (if (10 <? List.length programs)%nat
        then join " " (firstn 10 programs) ++ " ... (+"
               ++ str_of_int (Z.of_nat (List.length programs) - 10)
               ++ " more)"
        else join " " (firstn 10 programs))
    ++ "[/green]".

(** The search types [_render_results] has a formatter for. *)
Definition known_type (search_type : string) : bool :=
  (search_type =? "packages") || (search_type =? "flakes")
  || (search_type =? "options").

(** The name shown for a maintainer: [m.get("name", m.get("email", ""))]
    when it is a str. *)
Definition maintainer_name (m : value) : string :=
  match field m "name" (field m "email" (PStr "")) with
  | PStr s => s
  | _ => ""
  end.

(** The label of the first row of a table, by search type. *)
Definition name_label (search_type : string) : string :=
  if search_type =? "options" then "Option" else "Package".

(** A cell that opens with the number [index] in dim brackets. *)
Definition numbered (index : Z) (cell : string) : Prop :=
  exists rest, cell = "[dim]\[" ++ str_of_int index ++ "][/dim] " ++ rest.

(** [body[key]] *)
Definition body_item (key : string) (body : value) : option value :=
  match body with
  | PDict kv => lookup key kv
  | _ => None
  end.

End Views.

(** ** The query builder and the search client *)

Module ClientFacts.

Import Client Observe.

(** With free text, the query has one dis_max clause with one multi-match,
    whose field list is chosen by the test [search_type == "packages"]. *)
Lemma build_query_fields query name program version platform search_type :
  str_truthy query = true ->
  free_text_fields
    (_build_query query name program version platform search_type)
  = [Some (if search_type =? "packages" then package_fields else option_fields)].
Proof.
  intros Hq. unfold _build_query. rewrite Hq.
  destruct name as [n|]; [destruct (str_truthy n)|];
  (destruct program as [p|]; [destruct (str_truthy p)|]);
  (destruct version as [v|]; [destruct (str_truthy v)|]);
  (destruct platform as [a|]; [destruct (str_truthy a)|]);
  destruct (search_type =? "packages"); reflexivity.
Qed.

(** Without free text there is no dis_max clause. *)
Lemma build_query_no_free_text name program version platform search_type :
  free_text_fields
    (_build_query "" name program version platform search_type) = [].
Proof.
  unfold _build_query. simpl str_truthy. cbv iota.
  destruct name as [n|]; [destruct (str_truthy n)|];
  (destruct program as [p|]; [destruct (str_truthy p)|]);
  (destruct version as [v|]; [destruct (str_truthy v)|]);
  (destruct platform as [a|]; [destruct (str_truthy a)|]);
  reflexivity.
Qed.

(** C1, on the code: with free text "python" and searchType = flakes the
    dis_max clause carries the two option fields [option_name^2,
    option_description], not the package-oriented weighted list; packages
    carries the weighted list and options the two option fields. *)
Theorem flakes_free_text_uses_option_fields :
  free_text_fields (_build_query "python" None None None None "flakes")
    = [Some option_fields]
  /\ free_text_fields (_build_query "python" None None None None "flakes")
    <> [Some package_fields]
  /\ free_text_fields (_build_query "python" None None None None "packages")
    = [Some package_fields]
  /\ free_text_fields (_build_query "python" None None None None "options")
    = [Some option_fields].
Proof.
  repeat split; try reflexivity.
  vm_compute. discriminate.
Qed.

(** [_build_query] returns a dict whose only key is "query". *)
Lemma build_query_shape query name program version platform search_type :
  exists must,
    _build_query query name program version platform search_type
    = PDict [("query", PDict [("bool", PDict [("must", PList must)])])].
Proof. unfold _build_query. eexists. reflexivity. Qed.

(** The body: the built query, then size, from and sort, in that order. *)
Lemma search_body_items query name program version platform search_type size from_ :
  exists q,
    _build_query query name program version platform search_type
      = PDict [("query", q)]
    /\ search_body query name program version platform search_type size from_
      = PDict [("query", q); ("size", PInt size); ("from", PInt from_);
               ("sort", if search_type =? "packages"
                        then PList [by_score; by_attr_name]
                        else PList [by_score])].
Proof.
  destruct (build_query_shape query name program version platform search_type)
    as [must Hshape].
  eexists. split; [exact Hshape|].
  unfold search_body. rewrite Hshape. reflexivity.
Qed.

(** [search] makes one request, with the body of [search_body], and no
    other. *)
Lemma search_posts_body net self query name program version platform
    channel search_type size from_ :
  posted (effects (search net self query name program version platform
                     channel search_type size from_))
  = [search_body query name program version platform search_type size from_].
Proof.
  unfold search.
  destruct (net _ _ _ _); reflexivity.
Qed.

Lemma search_posts_endpoint net self query name program version platform
    channel search_type size from_ :
  endpoints (effects (search net self query name program version platform
                        channel search_type size from_))
  = [base_url self ++ "/backend/" ++ search_index channel search_type
       ++ "/_search"].
Proof.
  unfold search.
  destruct (net _ _ _ _); reflexivity.
Qed.

(** C2 as the specification words it fails for flakes: the body posted
    for a flakes search of "python" is not sorted by score and then
    attribute name. *)
Lemma flakes_sort_is_not_score_then_name :
  map sort_of
    (posted (effects
       (search (fun _ _ _ _ => Response (PDict []))
          (__init__ "https://search.nixos.org" None None)
          "python" None None None None "unstable" "flakes" 20 0)))
  <> [Some (PList [by_score; by_attr_name])].
Proof. vm_compute. discriminate. Qed.

(** C2, amended: for every search invocation the one body posted is sorted
    by [{_score: desc}, {package_attr_name: desc}] when searchType is
    packages, and by [{_score: desc}] when searchType is options or
    flakes. *)
Theorem search_sort_by_type net self query name program version platform
    channel size from_ :
  map sort_of
    (posted (effects (search net self query name program version platform
                        channel "packages" size from_)))
    = [Some (PList [by_score; by_attr_name])]
  /\ map sort_of
    (posted (effects (search net self query name program version platform
                        channel "options" size from_)))
    = [Some (PList [by_score])]
  /\ map sort_of
    (posted (effects (search net self query name program version platform
                        channel "flakes" size from_)))
    = [Some (PList [by_score])].
Proof.
  rewrite !search_posts_body.
  split; [|split].
  - destruct (search_body_items query name program version platform
                "packages" size from_) as [q [_ ->]]. reflexivity.
  - destruct (search_body_items query name program version platform
                "options" size from_) as [q [_ ->]]. reflexivity.
  - destruct (search_body_items query name program version platform
                "flakes" size from_) as [q [_ ->]]. reflexivity.
Qed.

(** C3: the index is latest-44-nixos-flakes for flakes whatever the
    channel, latest-44-nixos-<unstable|channel>-options for options and
    latest-44-nixos-<unstable|channel> for packages; it is the index of the
    endpoint [search] posts to. *)
Theorem index_naming_scheme net self query name program version platform
    channel search_type size from_ :
  search_index channel "flakes" = "latest-44-nixos-flakes"
  /\ search_index channel "options"
     = "latest-44-nixos-"
         ++ (if channel =? "unstable" then "unstable" else channel)
         ++ "-options"
  /\ search_index channel "packages"
     = "latest-44-nixos-"
         ++ (if channel =? "unstable" then "unstable" else channel)
  /\ endpoints (effects (search net self query name program version platform
                           channel search_type size from_))
     = [base_url self ++ "/backend/" ++ search_index channel search_type
          ++ "/_search"].
Proof.
  split; [reflexivity|].
  split; [unfold search_index; simpl; destruct (channel =? "unstable"); reflexivity|].
  split; [unfold search_index; simpl; destruct (channel =? "unstable"); reflexivity|].
  apply search_posts_endpoint.
Qed.

(** C4: the wildcard clauses of the built query are, in this order, one on
    package_attr_name when name is provided, one on package_programs when
    program is provided and one on package_pversion when version is
    provided, each with the value "*" + filter + "*" and nothing else done
    to it; a filter that is None or empty contributes no clause.  So
    [--name "emacsPackages.*"] gives ["*emacsPackages.**"]. *)
Theorem one_wildcard_per_filter query name program version platform search_type :
  wildcard_clauses
    (_build_query query name program version platform search_type)
  = (provided "package_attr_name" name
       ++ provided "package_programs" program
       ++ provided "package_pversion" version)%list
  /\ wildcard_clauses
       (_build_query "" (Some "emacsPackages.*") None None None "packages")
     = [PDict [("wildcard",
                PDict [("package_attr_name", PStr "*emacsPackages.**")])]].
Proof.
  split; [|reflexivity].
  unfold _build_query, provided.
  destruct (str_truthy query);
  (destruct name as [n|]; [destruct (str_truthy n)|]);
  (destruct program as [p|]; [destruct (str_truthy p)|]);
  (destruct version as [v|]; [destruct (str_truthy v)|]);
  (destruct platform as [a|]; [destruct (str_truthy a)|]);
  reflexivity.
Qed.

End ClientFacts.

(** ** Exceptions of the renderer *)

Module FormatterRaises.

Import Formatter Observe.

Lemma only_py_bind {A B} (m : outcome A) (k : A -> outcome B) :
  only_py m -> (forall a, only_py (k a)) -> only_py (bind m k).
Proof. destruct m; simpl; auto. Qed.

Lemma only_py_ebind {L A B} (m : eff L A) (k : A -> eff L B) :
  only_py (result m) -> (forall a, only_py (result (k a))) ->
  only_py (result (ebind m k)).
Proof.
  destruct m as [out [a|e]]; simpl; intros Hm Hk; auto.
  specialize (Hk a). destruct (k a); exact Hk.
Qed.

Lemma only_py_get d k v : only_py (get d k v).
Proof. destruct d; simpl; auto. Qed.

Lemma only_py_len v : only_py (len v).
Proof. destruct v; simpl; auto. Qed.

Lemma only_py_iter v : only_py (iter v).
Proof. destruct v; simpl; auto. Qed.

Lemma only_py_slice_to n v : only_py (slice_to n v).
Proof. destruct v; simpl; auto. Qed.

Lemma only_py_strs l : only_py (strs l).
Proof.
  induction l as [|v l IH]; simpl; auto.
  destruct v; simpl; auto. destruct (strs l); simpl in *; auto.
Qed.

Lemma only_py_join_value sep v : only_py (join_value sep v).
Proof.
  unfold join_value. pose proof (only_py_iter v) as Hi.
  destruct (iter v) as [items|e]; simpl in *; auto.
  pose proof (only_py_strs items) as Hs.
  destruct (strs items); simpl in *; auto.
Qed.

Lemma only_py_traverse {A B} (f : A -> outcome B) l :
  (forall x, only_py (f x)) -> only_py (traverse f l).
Proof.
  intros Hf. induction l as [|x l IH]; simpl; auto.
  specialize (Hf x). destruct (f x); simpl in *; auto.
  destruct (traverse f l); simpl in *; auto.
Qed.

Lemma only_py_description_cell limit d : only_py (description_cell limit d).
Proof. destruct d; simpl; auto. Qed.

Create HintDb raises.
#[export] Hint Resolve only_py_get only_py_len only_py_iter only_py_slice_to
  only_py_strs only_py_join_value only_py_description_cell : raises.

Lemma only_py_console_print `{Builtins} r :
  only_py (result (console_print r)).
Proof. unfold console_print. destruct (printable r); simpl; auto. Qed.

Ltac raises :=
  repeat first
    [ exact I
    | apply only_py_console_print
    | reflexivity
    | solve [auto with raises]
    | apply only_py_bind; [|intro]
    | apply only_py_ebind; [|intro]
    | apply only_py_traverse; intro
    | match goal with
      | |- only_py (if ?b then _ else _) => destruct b
      | |- only_py (result (if ?b then _ else _)) => destruct b
      | |- only_py (result (lift _)) => unfold lift, result; simpl snd
      | |- only_py (result (emit _)) => exact I
      | |- only_py (result (eret _)) => exact I
      end ].

Section WithBuiltins.
Context `{Builtins}.

Lemma only_py_format_package source index details :
  only_py (format_package_result_table source index details).
Proof. unfold format_package_result_table. raises. Qed.

Lemma only_py_format_option source index details :
  only_py (format_option_result_table source index details).
Proof. unfold format_option_result_table. raises. Qed.

(** One turn of the loop. *)
Lemma render_loop_cons hit rest i n search_type details compact :
  _render_results_loop (hit :: rest) i n search_type details compact
  = (source <~ lift (get hit "_source" (PDict [])) ;;
     table <~ lift
       (if (search_type =? "packages") || (search_type =? "flakes") then
          t <- format_package_result_table source i details ;; Return (Some t)
        else if search_type =? "options" then
          t <- format_option_result_table source i details ;; Return (Some t)
        else Return None) ;;
     match table with
     | Some table =>
         console_print (Grid table) ;;;
         (if negb compact && (i <? n)%Z then emit Blank else eret tt) ;;;
         _render_results_loop rest (i + 1) n search_type details compact
     | None => _render_results_loop rest (i + 1) n search_type details compact
     end).
Proof. reflexivity. Qed.

Lemma only_py_render_loop items : forall i n search_type details compact,
  only_py (result (_render_results_loop items i n search_type details compact)).
Proof.
  induction items as [|hit rest IH]; intros.
  - exact I.
  - rewrite render_loop_cons.
    apply only_py_ebind; [raises|intro source].
    apply only_py_ebind; [|intros [table|]].
    + raises; first [apply only_py_format_package | apply only_py_format_option].
    + raises; apply IH.
    + apply IH.
Qed.

Lemma only_py_render hits search_type total_value details compact :
  only_py (result (_render_results hits search_type total_value details compact)).
Proof. unfold _render_results. raises. apply only_py_render_loop. Qed.

Lemma only_py_response_total_value data :
  only_py (response_total_value data).
Proof.
  unfold response_total_value.
  apply only_py_bind; [raises|intro h].
  apply only_py_bind; [raises|intro total].
  destruct total; raises.
Qed.

Lemma only_py_print_results isatty data search_type details compact
    json_output reverse use_pager :
  only_py (result (print_results isatty data search_type details compact
                     json_output reverse use_pager)).
Proof.
  unfold print_results.
  destruct json_output; [destruct use_pager as [[|]|]; exact I|].
  apply only_py_ebind; [unfold response_hits; raises|intro hits].
  apply only_py_ebind; [apply only_py_response_total_value|intro total_value].
  destruct (negb (truthy hits)); [exact I|].
  apply only_py_ebind; [unfold reversed; raises|intro hits'].
  apply only_py_ebind; [destruct use_pager; raises|intro should_use_pager].
  pose proof (only_py_render hits' search_type total_value details compact) as Hr.
  destruct (_render_results hits' search_type total_value details compact)
    as [printed [u|e]];
  destruct (should_use_pager && isatty); simpl in *; auto.
Qed.

End WithBuiltins.

End FormatterRaises.

(** ** The command line *)

Module CliFacts.

Import Client Formatter Cli Observe FormatterRaises.

Lemma validate_cases query name program version size from_ :
  (rejected query name program version size from_
   /\ exists e, validate query name program version size from_ = Raise e
                /\ is_usage_error (Raise e) = true
                /\ exit_status (Raise e) = 2%Z)
  \/ (~ rejected query name program version size from_
      /\ validate query name program version size from_ = Return tt).
Proof.
  unfold validate, rejected, no_term, MAX_RESULTS.
  destruct (str_truthy query) eqn:Hq, (opt_truthy name) eqn:Hn,
           (opt_truthy program) eqn:Hp, (opt_truthy version) eqn:Hv;
    simpl;
    try (destruct (Z.leb_spec size 0);
         [left; split; [lia|eexists; repeat split]|];
         destruct (Z.ltb_spec from_ 0);
         [left; split; [lia|eexists; repeat split]|];
         destruct (Z.ltb_spec 10000 (from_ + size));
         [left; split; [lia|eexists; repeat split]|];
         right; split; [|reflexivity];
         intros [[? [? [? ?]]]|[?|[?|?]]]; solve [discriminate | lia]).
  left. split; [left; auto|]. eexists; repeat split.
Qed.

Lemma search_result net self query name program version platform channel
    search_type size from_ :
  is_usage_error
    (r <- result (search net self query name program version platform
                    channel search_type size from_) ;; Return tt) = false.
Proof. unfold search. destruct (net _ _ _ _); reflexivity. Qed.

Section WithBuiltins.
Context `{Builtins}.

(** C5: when no search term is present, or size <= 0, or offset < 0, or
    offset + size > 10000, [main] raises a usage error, the process exits
    with a non-zero status, and nothing has happened before it: no client
    was constructed, no request posted, nothing printed.  When all four
    checks pass, no usage error is raised and the client is constructed. *)
Theorem usage_error_before_any_effect net isatty query name program version
    platform channel search_type size from_ details compact reverse
    json_output pager base_url :
  let run := main net isatty query name program version platform channel
               search_type size from_ details compact reverse json_output
               pager base_url in
  (rejected query name program version size from_ ->
     is_usage_error (result run) = true
     /\ exit_status (result run) <> 0%Z
     /\ effects run = [])
  /\ (~ rejected query name program version size from_ ->
       is_usage_error (result run) = false
       /\ exists rest,
            effects run = Construct (__init__ base_url None None) :: rest).
Proof.
  intros run. subst run. unfold main.
  destruct (validate_cases query name program version size from_)
    as [[Hrej [e [Hv [He Hx]]]]|[Hok Hv]]; rewrite Hv.
  - split; [intros _|intros Hn; contradiction].
    change (result (lift (Raise e) ;;; _)) with (@Raise unit e).
    rewrite He, Hx. repeat split. discriminate.
  - split; [intros Hr; contradiction|intros _].
    unfold lift, ebind at 1. simpl app.
    set (client := __init__ base_url None None).
    pose proof (search_result net client query name program version platform
                  channel search_type size from_) as Hs.
    destruct (search net client query name program version platform channel
                search_type size from_) as [eff1 [data|e1]]; simpl in Hs |- *.
    + pose proof (only_py_print_results isatty data search_type details
                    compact json_output reverse pager) as Hp.
      destruct (print_results isatty data search_type details compact
                  json_output reverse pager) as [eff2 [u|e2]]; simpl in Hp |- *.
      * split; [reflexivity|eexists; reflexivity].
      * subst e2. split; [reflexivity|eexists; reflexivity].
    + split; [destruct e1; simpl in Hs |- *; congruence|eexists; reflexivity].
Qed.

End WithBuiltins.

(** A run with size 0 is rejected with nothing done. *)
Lemma usage_error_before_any_effect_witness :
  let run := @main sample_builtins (fun _ _ _ _ => Response (PDict [])) true
               "python" None None None None "unstable" "packages" 0 0
               false false false false None "https://search.nixos.org" in
  is_usage_error (result run) = true
  /\ exit_status (result run) <> 0%Z
  /\ effects run = [].
Proof.
  apply (proj1 (@usage_error_before_any_effect sample_builtins
                  (fun _ _ _ _ => Response (PDict [])) true
                  "python" None None None None "unstable" "packages" 0 0
                  false false false false None "https://search.nixos.org")).
  right. left. lia.
Defined.

End CliFacts.

(** ** Steps of the formatters *)

Module Steps.

Import Formatter Observe Views.

Lemma bind_return {A B} (m : outcome A) (k : A -> outcome B) b :
  bind m k = Return b -> exists a, m = Return a /\ k a = Return b.
Proof. destruct m as [a|e]; [exists a; auto|discriminate]. Qed.

Lemma strs_of_strs ps : strs (map PStr ps) = Return ps.
Proof. induction ps as [|p ps IH]; simpl; [|rewrite IH]; reflexivity. Qed.

Lemma join_first_strs sep n ps :
  (part <- slice_to n (PList (map PStr ps)) ;; join_value sep part)
  = Return (join sep (firstn n ps)).
Proof.
  cbn [slice_to bind]. unfold join_value, iter.
  rewrite firstn_map, strs_of_strs. reflexivity.
Qed.

(** The joined names and the count the Programs cell is made of. *)
Lemma programs_shown sep n ps :
  (shown <- slice_to n (PList (map PStr ps)) ;;
   programs_str <- join_value sep shown ;;
   k <- len (PList (map PStr ps)) ;; Return (programs_str, k))
  = Return (join sep (firstn n ps), Z.of_nat (List.length ps)).
Proof.
  cbn [slice_to bind]. unfold join_value, iter.
  rewrite firstn_map, strs_of_strs. cbn [bind len]. rewrite length_map.
  reflexivity.
Qed.

(** A step that adds one row when [b] holds: the row is there exactly when
    [b] holds, and then the cell's computation has returned. *)
Lemma row_step {A} (b : bool) (m : outcome A) (t : Table) (label : string)
    (cell : A -> string) (t' : Table) :
  (if b then x <- m ;; Return (add_row t label (cell x)) else Return t)
  = Return t' ->
  rows t' = (rows t ++ when b match m with
                              | Return x => [(label, cell x)]
                              | Raise _ => []
                              end)%list
  /\ (b = true -> completes m = true).
Proof.
  destruct b; [|intros [= <-]; split; [symmetry; apply app_nil_r|discriminate]].
  destruct m as [x|e]; [|discriminate].
  intros [= <-]. split; reflexivity.
Qed.

(** The programs step, whose cell needs the joined names and the count. *)
Lemma programs_step programs (t : Table) (cell : string -> Z -> string) t' :
  (if truthy programs then
     shown <- slice_to MAX_PROGRAMS_DISPLAY programs ;;
     programs_str <- join_value " " shown ;;
     n <- len programs ;;
     Return (add_row t "Programs" (cell programs_str n))
   else Return t) = Return t' ->
  exists m,
    m = (shown <- slice_to MAX_PROGRAMS_DISPLAY programs ;;
         programs_str <- join_value " " shown ;;
         n <- len programs ;; Return (programs_str, n))
    /\ (if truthy programs
        then x <- m ;; Return (add_row t "Programs" (cell (fst x) (snd x)))
        else Return t) = Return t'.
Proof.
  intros Hstep. eexists. split; [reflexivity|].
  destruct (truthy programs); [|exact Hstep].
  destruct (slice_to MAX_PROGRAMS_DISPLAY programs) as [shown|e];
    [|discriminate].
  cbn [bind] in *. destruct (join_value " " shown) as [s|e]; [|discriminate].
  cbn [bind] in *. destruct (len programs) as [n|e]; [|discriminate].
  exact Hstep.
Qed.

(** A joined row: [sep.join(v[:n])]. *)
Lemma joined_step sep n v (t : Table) label (cell : string -> string) t' :
  (if truthy v then
     part <- slice_to n v ;;
     joined <- join_value sep part ;;
     Return (add_row t label (cell joined))
   else Return t) = Return t' ->
  (if truthy v
   then x <- (part <- slice_to n v ;; join_value sep part) ;;
        Return (add_row t label (cell x))
   else Return t) = Return t'.
Proof.
  destruct (truthy v); [|exact (fun x => x)].
  destruct (slice_to n v) as [part|e]; [|discriminate].
  exact (fun x => x).
Qed.

(** The maintainers row. *)
Lemma maintainers_step v (t : Table) (cell : string -> string) t' :
  (if truthy v then
     first3 <- slice_to 3 v ;;
     ms <- iter first3 ;;
     maint_names <- traverse (fun m =>
       email <- get m "email" (PStr "") ;; get m "name" email) ms ;;
     maint_str <- join_value ", " (PList maint_names) ;;
     Return (add_row t "Maintainers" (cell maint_str))
   else Return t) = Return t' ->
  (if truthy v
   then x <- (first3 <- slice_to 3 v ;;
              ms <- iter first3 ;;
              maint_names <- traverse (fun m =>
                email <- get m "email" (PStr "") ;; get m "name" email) ms ;;
              join_value ", " (PList maint_names)) ;;
        Return (add_row t "Maintainers" (cell x))
   else Return t) = Return t'.
Proof.
  destruct (truthy v); [|exact (fun x => x)].
  destruct (slice_to 3 v) as [first3|e]; [|discriminate].
  cbn [bind]. destruct (iter first3) as [ms|e]; [|discriminate].
  cbn [bind]. destruct (traverse _ ms) as [names|e]; [|discriminate].
  exact (fun x => x).
Qed.

Lemma rows_when_add_row (b : bool) (t : Table) label cell :
  rows (if b then add_row t label cell else t)
  = (rows t ++ when b [(label, cell)])%list.
Proof. destruct b; [reflexivity|symmetry; apply app_nil_r]. Qed.

(** Settling the rows that are there: a truthy value whose cell has been
    computed, or a falsy one. *)
Ltac settle :=
  repeat match goal with
         | C : ?b = true -> completes ?m = true |- _ =>
             destruct b;
             [specialize (C eq_refl); destruct m; [|discriminate C]|];
             clear C
         end.

(** The texts inside the cells play no part in which rows there are:
    they are folded into variables. *)
Ltac fold_text s :=
  let x := fresh "text" in set (x := s) in *; clearbody x.

Ltac fold_texts :=
  fold_text "[dim]\["; fold_text "][/dim] [bold cyan]";
  fold_text "[/bold cyan] [dim]@[/dim] [yellow]"; fold_text "[/yellow]";
  fold_text "[/bold cyan]"; fold_text "[dim]nix-env -iA nixpkgs.";
  fold_text "[/dim]"; fold_text "[dim]nix profile install nixpkgs#";
  fold_text "[link="; fold_text "[/link]"; fold_text "[magenta]";
  fold_text "[/magenta]"; fold_text "[cyan]"; fold_text "[/cyan]";
  fold_text "[green]"; fold_text "[/green]"; fold_text " ... (+";
  fold_text " more)".

(** The names of maintainers that are all dicts with a str for a name. *)
Lemma maintainer_names ms :
  forallb maintainer_ok ms = true ->
  (names <- traverse (fun m =>
     email <- get m "email" (PStr "") ;; get m "name" email) ms ;;
   join_value ", " (PList names))
  = Return (join ", " (map maintainer_name ms)).
Proof.
  intros Hok.
  assert (Hnames : traverse (fun m =>
            email <- get m "email" (PStr "") ;; get m "name" email) ms
          = Return (map (fun m => PStr (maintainer_name m)) ms)).
  { induction ms as [|m ms IH]; [reflexivity|].
    simpl in Hok. apply andb_true_iff in Hok. destruct Hok as [Hm Hms].
    cbn [traverse map]. rewrite (IH Hms).
    unfold maintainer_ok, maintainer_name, field in *.
    destruct m; try discriminate Hm. cbn [get bind is_dict andb] in *.
    destruct (match lookup "name" kv with
              | Some v => v
              | None => match lookup "email" kv with
                        | Some v => v
                        | None => PStr ""
                        end
              end); try discriminate Hm.
    reflexivity. }
  rewrite Hnames. cbn [bind]. unfold join_value, iter.
  rewrite <- (map_map maintainer_name PStr), strs_of_strs. reflexivity.
Qed.

End Steps.

(** ** The renderer *)

Module FormatterFacts.

Import Formatter Observe Views FormatterRaises Steps.

Lemma ebind_lift_return {L A B} (a : A) (k : A -> eff L B) :
  ebind (lift (Return a)) k = k a.
Proof. unfold ebind, lift. destruct (k a). reflexivity. Qed.

Lemma ebind_lift_raise {L A B} (e : exn) (k : A -> eff L B) :
  ebind (lift (Raise e)) k = ([], Raise e).
Proof. reflexivity. Qed.

Lemma ebind_eret {L A B} (a : A) (k : A -> eff L B) :
  ebind (eret a) k = k a.
Proof. unfold ebind, eret. destruct (k a). reflexivity. Qed.

Lemma ebind_emit {L B} (x : L) (k : unit -> eff L B) :
  ebind (emit x) k = (x :: fst (k tt), snd (k tt)).
Proof. unfold ebind, emit. destruct (k tt). reflexivity. Qed.

Lemma pager_not_invoked_on_console printed :
  pager_invoked (map ConsolePrint printed) = false.
Proof. induction printed; simpl; auto. Qed.

Lemma shown_console printed : shown (map ConsolePrint printed) = printed.
Proof. induction printed; simpl; congruence. Qed.

Section WithBuiltins.
Context `{Builtins}.

Lemma ebind_console_print {B} (r : renderable) (k : unit -> eff renderable B) :
  ebind (console_print r) k
  = if printable r then (r :: fst (k tt), snd (k tt)) else ([], Raise PyError).
Proof.
  unfold console_print. destruct (printable r); [apply ebind_emit|reflexivity].
Qed.

(** Where the hits can be read, so can the total. *)
Lemma response_total_defined data hits :
  response_hits data = Return hits ->
  exists total_value, response_total_value data = Return total_value.
Proof.
  unfold response_hits, response_total_value.
  destruct data; simpl; try discriminate.
  destruct (match lookup "hits" kv with Some v => v | None => PDict [] end);
    simpl; try discriminate.
  intros _.
  destruct (match lookup "total" kv0 with Some v => v | None => PDict [] end);
    simpl; eexists; reflexivity.
Qed.

(** [_render_results] on a list: the "Found" line, when rich prints it,
    then the loop. *)
Lemma render_list hs search_type total_value details compact :
  _render_results (PList hs) search_type total_value details compact
  = if printable (found_line total_value (List.length hs)) then
      (found_line total_value (List.length hs)
         :: fst (_render_results_loop hs 1 (Z.of_nat (List.length hs))
                   search_type details compact),
       snd (_render_results_loop hs 1 (Z.of_nat (List.length hs))
              search_type details compact))
    else ([], Raise PyError).
Proof.
  unfold _render_results. simpl len.
  rewrite ebind_lift_return, ebind_console_print.
  simpl iter. rewrite ebind_lift_return. reflexivity.
Qed.

(** One turn of the loop, by the table of the hit. *)
Lemma render_loop_step hit rest i n search_type details compact :
  _render_results_loop (hit :: rest) i n search_type details compact
  = match hit_table search_type details i hit with
    | Return (Some table) =>
        if printable (Grid table) then
          (Grid table
             :: (when (negb compact && (i <? n)%Z) [Blank]
                 ++ fst (_render_results_loop rest (i + 1) n search_type
                           details compact))%list,
           snd (_render_results_loop rest (i + 1) n search_type details
                  compact))
        else ([], Raise PyError)
    | Return None =>
        _render_results_loop rest (i + 1) n search_type details compact
    | Raise e => ([], Raise e)
    end.
Proof.
  rewrite render_loop_cons. unfold hit_table.
  destruct (get hit "_source" (PDict [])) as [source|e];
    [rewrite ebind_lift_return|reflexivity].
  cbn [bind].
  destruct (if (search_type =? "packages") || (search_type =? "flakes")
            then _ else _) as [[t|]|e];
    [|rewrite ebind_lift_return; reflexivity|reflexivity].
  rewrite ebind_lift_return, ebind_console_print.
  destruct (printable (Grid t)); [|reflexivity].
  destruct (negb compact && (i <? n)%Z);
    [rewrite ebind_emit|rewrite ebind_eret]; reflexivity.
Qed.

(** A search type with a formatter gives every hit a table; one without
    gives none. *)
Lemma hit_table_by_type search_type details i hit t :
  hit_table search_type details i hit = Return t ->
  known_type search_type = match t with Some _ => true | None => false end.
Proof.
  unfold hit_table, known_type.
  destruct (get hit "_source" (PDict [])) as [source|e]; [|discriminate].
  cbn [bind].
  destruct ((search_type =? "packages") || (search_type =? "flakes")).
  - destruct (format_package_result_table source i details);
      cbn [bind]; [intros [= <-]; reflexivity|discriminate].
  - destruct (search_type =? "options").
    + destruct (format_option_result_table source i details);
        cbn [bind]; [intros [= <-]; reflexivity|discriminate].
    + intros [= <-]. reflexivity.
Qed.

(** Table mode on a non-empty list of hits: the hits, reversed on request,
    are rendered with the response's total and delivered to the pager or
    to the console. *)
Lemma print_results_table_mode isatty data search_type details compact
    reverse use_pager hs :
  response_hits data = Return (PList hs) -> hs <> [] ->
  exists total_value,
    response_total_value data = Return total_value
    /\ print_results isatty data search_type details compact false reverse
         use_pager
       = deliver (paging use_pager (List.length hs) isatty)
           (_render_results (PList (if reverse then rev hs else hs))
              search_type total_value details compact).
Proof.
  intros Hh Hne.
  destruct (response_total_defined data _ Hh) as [tv Htv].
  exists tv. split; [exact Htv|].
  unfold print_results. rewrite Hh, Htv, !ebind_lift_return.
  replace (truthy (PList hs)) with true by (destruct hs; [contradiction|reflexivity]).
  cbv beta iota delta [negb].
  assert (Hrev : (if reverse then reversed (PList hs) else Return (PList hs))
                 = Return (PList (if reverse then rev hs else hs)))
    by (destruct reverse; reflexivity).
  rewrite Hrev, ebind_lift_return.
  assert (Hlen : List.length (if reverse then rev hs else hs) = List.length hs)
    by (destruct reverse; [apply length_rev|reflexivity]).
  assert (Hpage : match use_pager with
                  | Some b => Return b
                  | None =>
                      n <- len (PList (if reverse then rev hs else hs)) ;;
                      Return (PAGER_THRESHOLD <? n)%Z
                  end
                  = Return (match use_pager with
                            | Some b => b
                            | None => (10 <? Z.of_nat (List.length hs))%Z
                            end))
    by (destruct use_pager; simpl; [|rewrite Hlen]; reflexivity).
  rewrite Hpage, ebind_lift_return.
  unfold deliver, paging.
  destruct (_ && isatty);
    destruct (_render_results _ search_type tv details compact) as [buf [[]|e]];
    reflexivity.
Qed.

(** *** Where the formatters return *)

Lemma completes_bind {A B} (m : outcome A) (k : A -> outcome B) c :
  (forall a, completes (k a) = c) ->
  completes (bind m k) = completes m && c.
Proof. intros Hk. destruct m; simpl; auto. Qed.

Lemma completes_strs l : completes (strs l) = forallb is_str l.
Proof.
  induction l as [|v l IH]; [reflexivity|].
  destruct v; try reflexivity. simpl. rewrite <- IH.
  destruct (strs l); reflexivity.
Qed.

Lemma strs_chars s : strs (map PStr (chars s)) = Return (chars s).
Proof. induction s as [|c s IH]; simpl; [|rewrite IH]; reflexivity. Qed.

Lemma completes_join_list sep l :
  completes (join_value sep (PList l)) = forallb is_str l.
Proof.
  unfold join_value, iter. rewrite <- completes_strs.
  destruct (strs l); reflexivity.
Qed.

Lemma completes_join_str sep s : completes (join_value sep (PStr s)) = true.
Proof. unfold join_value, iter. rewrite strs_chars. reflexivity. Qed.

(** [sep.join(v[:n])] for a truthy [v]. *)
Lemma completes_join_slice sep n v :
  truthy v = true ->
  completes (part <- slice_to n v ;; join_value sep part) = joinable n v.
Proof.
  intros Ht. unfold joinable. rewrite Ht.
  destruct v; try reflexivity; simpl.
  - apply completes_join_str.
  - apply completes_join_list.
Qed.

Lemma completes_description_cell limit v :
  truthy v = true -> completes (description_cell limit v) = cell_ok v.
Proof. intros Ht. unfold cell_ok. rewrite Ht. destruct v; reflexivity. Qed.

Lemma completes_unit (o : outcome unit) : completes o = true -> o = Return tt.
Proof. destruct o as [[]|e]; [reflexivity|discriminate]. Qed.

Lemma joinable_falsy n v : truthy v = false -> joinable n v = true.
Proof. intros Ht. unfold joinable. rewrite Ht. reflexivity. Qed.

(** A joined row whose remaining steps cannot raise. *)
Lemma completes_join_then {A} sep n v (k : string -> outcome A) :
  (forall s, completes (k s) = true) ->
  truthy v = true ->
  completes (part <- slice_to n v ;; s <- join_value sep part ;; k s)
  = joinable n v.
Proof.
  intros Hk Ht. rewrite <- (completes_join_slice sep n v Ht).
  destruct (slice_to n v) as [part|e]; [|reflexivity].
  cbn [bind]. destruct (join_value sep part); [apply Hk|reflexivity].
Qed.

(** The programs row: [len(programs)] is defined wherever the slice is. *)
Lemma completes_programs_row {A} (k : string -> Z -> A) programs :
  truthy programs = true ->
  completes (part <- slice_to MAX_PROGRAMS_DISPLAY programs ;;
             programs_str <- join_value " " part ;;
             n <- len programs ;;
             Return (k programs_str n))
  = joinable 10 programs.
Proof.
  intros Ht. rewrite <- (completes_join_slice " " 10 programs Ht).
  destruct programs; try reflexivity; cbn [slice_to bind len];
    destruct (join_value " " _); reflexivity.
Qed.

Lemma completes_maintainer_names l :
  completes (names <- traverse (fun m =>
               email <- get m "email" (PStr "") ;; get m "name" email) l ;;
             join_value ", " (PList names))
  = forallb maintainer_ok l.
Proof.
  induction l as [|m l IH]; [reflexivity|].
  simpl traverse. simpl forallb.
  destruct m; try reflexivity.
  unfold maintainer_ok at 1, field. cbn [get bind is_dict andb].
  destruct (traverse _ l) as [ys|e]; cbn [bind] in *.
  - rewrite completes_join_list in *. simpl forallb. rewrite IH. reflexivity.
  - rewrite <- IH, andb_false_r. reflexivity.
Qed.

(** The maintainers row.  The characters of a str are not dicts, so a
    non-empty str raises at its first character. *)
Lemma completes_maintainers_row (k : string -> Table) maintainers :
  truthy maintainers = true ->
  completes (first3 <- slice_to 3 maintainers ;;
             ms <- iter first3 ;;
             maint_names <- traverse (fun m =>
               email <- get m "email" (PStr "") ;; get m "name" email) ms ;;
             maint_str <- join_value ", " (PList maint_names) ;;
             Return (k maint_str))
  = maintainers_ok maintainers.
Proof.
  intros Ht. unfold maintainers_ok. rewrite Ht.
  destruct maintainers as [| | | |s|l|kv]; try reflexivity.
  - destruct s as [|c s]; [discriminate|]. reflexivity.
  - cbn [slice_to iter bind negb orb].
    rewrite <- completes_maintainer_names.
    destruct (traverse _ (firstn 3 l)) as [names|e]; [|reflexivity].
    cbn [bind]. destruct (join_value ", " (PList names)); reflexivity.
Qed.

Lemma forallb_rev {A} (f : A -> bool) l : forallb f (rev l) = forallb f l.
Proof.
  induction l as [|x l IH]; [reflexivity|].
  simpl. rewrite forallb_app, IH. simpl. rewrite andb_true_r. apply andb_comm.
Qed.

(** [format_option_result_table] returns exactly on a dict whose
    description is falsy or a str. *)
Lemma format_option_defined source index details :
  completes (format_option_result_table source index details)
  = option_source_ok source.
Proof.
  unfold format_option_result_table, option_source_ok.
  destruct source; try reflexivity.
  unfold field. cbn [get bind is_dict andb].
  set (description := match lookup "option_description" kv with
                      | Some v => v | None => PStr "" end).
  destruct (truthy description) eqn:Ht.
  - rewrite <- (completes_description_cell MAX_OPTION_DESCRIPTION_LENGTH _ Ht).
    destruct (description_cell _ _); reflexivity.
  - unfold cell_ok. rewrite Ht. reflexivity.
Qed.

(** [format_package_result_table] returns exactly on the sources of
    [package_source_ok]. *)
Lemma format_package_defined source index details :
  completes (format_package_result_table source index details)
  = package_source_ok details source.
Proof.
  unfold format_package_result_table, package_source_ok.
  destruct source; try reflexivity.
  unfold field. cbn [get bind is_dict andb].
  set (description := match lookup "package_description" kv with
                      | Some v => v | None => _ end).
  set (programs := match lookup "package_programs" kv with
                   | Some v => v | None => _ end).
  set (license_name := match lookup "package_license_set" kv with
                       | Some v => v | None => _ end).
  set (maintainers := match lookup "package_maintainers" kv with
                      | Some v => v | None => _ end).
  rewrite (completes_bind _ _
             (cell_ok description
              && (negb details
                  || (joinable 3 license_name && maintainers_ok maintainers)))).
  2: { intro table.
       rewrite (completes_bind _ _
                  (negb details
                   || (joinable 3 license_name && maintainers_ok maintainers))).
       2: { intro table0.
            rewrite (completes_bind _ _ true) by (intros; reflexivity).
            rewrite andb_true_r.
            destruct details; [|reflexivity].
            rewrite (completes_bind _ _ (maintainers_ok maintainers)).
            2: { intro table1.
                 destruct (truthy maintainers) eqn:Hm.
                 - apply completes_maintainers_row. exact Hm.
                 - unfold maintainers_ok. rewrite Hm. reflexivity. }
            destruct (truthy license_name) eqn:Hl.
            - rewrite completes_join_then; [reflexivity|reflexivity|exact Hl].
            - rewrite (joinable_falsy 3 license_name Hl). reflexivity. }
       destruct (truthy description) eqn:Hd.
       - rewrite <- (completes_description_cell MAX_DESCRIPTION_LENGTH _ Hd).
         destruct (description_cell _ _); reflexivity.
       - unfold cell_ok. rewrite Hd. reflexivity. }
  destruct (truthy programs) eqn:Hp.
  - rewrite (completes_programs_row _ programs Hp), andb_assoc. reflexivity.
  - rewrite (joinable_falsy 10 programs Hp). reflexivity.
Qed.

(** Whether a hit gets a table does not depend on its position. *)
Lemma hit_table_defined search_type details i hit :
  completes (hit_table search_type details i hit)
  = hit_formats search_type details hit.
Proof.
  unfold hit_table, hit_formats. destruct hit; try reflexivity.
  unfold field. cbn [get bind is_dict andb].
  destruct ((search_type =? "packages") || (search_type =? "flakes")).
  - rewrite <- (format_package_defined _ i details).
    destruct (format_package_result_table _ i details); reflexivity.
  - destruct (search_type =? "options"); [|reflexivity].
    rewrite <- (format_option_defined _ i details).
    destruct (format_option_result_table _ i details); reflexivity.
Qed.

Lemma hit_tables_defined search_type details hits : forall i,
  completes (hit_tables search_type details i hits)
  = forallb (hit_formats search_type details) hits.
Proof.
  induction hits as [|hit rest IH]; intros i; [reflexivity|].
  simpl. rewrite <- (hit_table_defined search_type details i hit),
                 <- (IH (i + 1)%Z).
  destruct (hit_table search_type details i hit); [|reflexivity].
  cbn [bind]. destruct (hit_tables search_type details (i + 1) rest); reflexivity.
Qed.

(** *** What rich is asked to print *)

Lemma package_cell_number i j rest :
  markup_ok ("[dim]\[" ++ str_of_int i ++ "][/dim] [bold cyan]" ++ rest)
  = markup_ok ("[dim]\[" ++ str_of_int j ++ "][/dim] [bold cyan]" ++ rest).
Proof. exact (markup_ok_number i j ("[bold cyan]" ++ rest)). Qed.

Lemma option_cell_number i j rest :
  markup_ok ("[dim]\[" ++ str_of_int i ++ "][/dim] [bold magenta]" ++ rest)
  = markup_ok ("[dim]\[" ++ str_of_int j ++ "][/dim] [bold magenta]" ++ rest).
Proof. exact (markup_ok_number i j ("[bold magenta]" ++ rest)). Qed.

(** The cells of a package table at another position, or without the
    details, are cells of the table with them, but for the number: where
    rich takes the one table it takes the other. *)
Lemma package_table_printable fields i j (d d' : bool) t t' :
  implb d' d = true ->
  format_package_result_table (PDict fields) i d = Return t ->
  format_package_result_table (PDict fields) j d' = Return t' ->
  printable (Grid t) = true -> printable (Grid t') = true.
Proof.
  intros Hd Ht Ht'.
  unfold format_package_result_table in Ht, Ht'. cbn [get bind] in Ht, Ht'.
  apply bind_return in Ht as [t1 [E1 Ht]].
  apply programs_step in E1 as [mP [HmP E1]].
  apply row_step in E1 as [R1 _]. subst mP.
  apply bind_return in Ht as [t2 [E2 Ht]].
  apply (row_step _ _ _ _ (fun cell => cell)) in E2 as [R2 _].
  apply bind_return in Ht as [t3 [E3 Ht]].
  injection Ht as <-.
  apply bind_return in Ht' as [u1 [F1 Ht']].
  apply programs_step in F1 as [mP [HmP F1]].
  apply row_step in F1 as [S1 _]. subst mP.
  apply bind_return in Ht' as [u2 [F2 Ht']].
  apply (row_step _ _ _ _ (fun cell => cell)) in F2 as [S2 _].
  apply bind_return in Ht' as [u3 [F3 Ht']].
  injection Ht' as <-.
  unfold printable. cbn [rows add_row].
  destruct d, d'; try discriminate Hd.
  - apply bind_return in E3 as [t4 [E4 E5]].
    apply joined_step in E4. apply row_step in E4 as [R4 _].
    apply maintainers_step in E5. apply row_step in E5 as [R5 _].
    apply bind_return in F3 as [u4 [F4 F5]].
    apply joined_step in F4. apply row_step in F4 as [S4 _].
    apply maintainers_step in F5. apply row_step in F5 as [S5 _].
    rewrite R5, R4, S5, S4, !rows_when_add_row, R2, R1, S2, S1.
    cbn [rows add_row new_table app forallb snd]. rewrite !forallb_app.
    cbn [forallb snd].
    destruct (truthy match lookup "package_pversion" fields with
                     | Some v => v
                     | None => PStr ""
                     end);
      rewrite (package_cell_number i j); exact (fun x => x).
  - apply bind_return in E3 as [t4 [E4 E5]].
    apply joined_step in E4. apply row_step in E4 as [R4 _].
    apply maintainers_step in E5. apply row_step in E5 as [R5 _].
    injection F3 as <-.
    rewrite R5, R4, !rows_when_add_row, R2, R1, S2, S1.
    cbn [rows add_row new_table app forallb snd]. rewrite !forallb_app.
    cbn [forallb snd].
    destruct (truthy match lookup "package_pversion" fields with
                     | Some v => v
                     | None => PStr ""
                     end);
      rewrite (package_cell_number i j), !andb_true_iff; tauto.
  - injection E3 as <-. injection F3 as <-.
    rewrite R2, R1, S2, S1.
    cbn [rows add_row new_table app forallb snd]. rewrite !forallb_app.
    cbn [forallb snd].
    destruct (truthy match lookup "package_pversion" fields with
                     | Some v => v
                     | None => PStr ""
                     end);
      rewrite (package_cell_number i j); exact (fun x => x).
Qed.

(** The same for an option table. *)
Lemma option_table_printable fields i j (d d' : bool) t t' :
  implb d' d = true ->
  format_option_result_table (PDict fields) i d = Return t ->
  format_option_result_table (PDict fields) j d' = Return t' ->
  printable (Grid t) = true -> printable (Grid t') = true.
Proof.
  intros Hd Ht Ht'.
  unfold format_option_result_table in Ht, Ht'. cbn [get bind] in Ht, Ht'.
  apply bind_return in Ht as [t1 [E1 Ht]].
  apply (row_step _ _ _ _ (fun cell => cell)) in E1 as [R1 _].
  injection Ht as <-.
  apply bind_return in Ht' as [u1 [F1 Ht']].
  apply (row_step _ _ _ _ (fun cell => cell)) in F1 as [S1 _].
  injection Ht' as <-.
  unfold printable.
  destruct d, d'; try discriminate Hd;
    rewrite ?rows_when_add_row, R1, S1, ?rows_when_add_row;
    cbn [rows add_row new_table app forallb snd]; rewrite ?forallb_app;
    cbn [forallb snd];
    rewrite (option_cell_number i j), ?andb_true_iff; tauto.
Qed.

Lemma hit_table_printable search_type i j (d d' : bool) hit t t' :
  implb d' d = true ->
  hit_table search_type d i hit = Return (Some t) ->
  hit_table search_type d' j hit = Return (Some t') ->
  printable (Grid t) = true -> printable (Grid t') = true.
Proof.
  unfold hit_table. intros Hd.
  destruct (get hit "_source" (PDict [])) as [source|e]; [|discriminate].
  cbn [bind].
  destruct ((search_type =? "packages") || (search_type =? "flakes")).
  - destruct (format_package_result_table source i d) as [a|e] eqn:Ha;
      [|discriminate].
    destruct (format_package_result_table source j d') as [b|e] eqn:Hb;
      [|discriminate].
    cbn [bind]. intros [= <-] [= <-].
    destruct source; try discriminate Ha.
    exact (package_table_printable _ _ _ _ _ _ _ Hd Ha Hb).
  - destruct (search_type =? "options"); [|discriminate].
    destruct (format_option_result_table source i d) as [a|e] eqn:Ha;
      [|discriminate].
    destruct (format_option_result_table source j d') as [b|e] eqn:Hb;
      [|discriminate].
    cbn [bind]. intros [= <-] [= <-].
    destruct source; try discriminate Ha.
    exact (option_table_printable _ _ _ _ _ _ _ Hd Ha Hb).
Qed.

(** A hit is got past exactly when its table, at whatever position, is
    built and printed. *)
Lemma hit_ok_spec search_type details i hit :
  hit_ok search_type details hit
  = match hit_table search_type details i hit with
    | Return (Some table) => printable (Grid table)
    | Return None => true
    | Raise _ => false
    end.
Proof.
  unfold hit_ok, hit_prints.
  pose proof (hit_table_defined search_type details i hit) as Hi.
  pose proof (hit_table_defined search_type details 1 hit) as H1.
  assert (Hd : implb details details = true) by (destruct details; reflexivity).
  destruct (hit_table search_type details i hit) as [[t|]|e] eqn:Ei;
    destruct (hit_table search_type details 1 hit) as [[t1|]|e1] eqn:E1;
    cbn [completes] in Hi, H1; rewrite <- Hi in *; try discriminate H1;
    cbn [andb]; try reflexivity.
  - apply eq_true_iff_eq. split.
    + exact (hit_table_printable _ _ _ _ _ _ _ _ Hd E1 Ei).
    + exact (hit_table_printable _ _ _ _ _ _ _ _ Hd Ei E1).
  - pose proof (hit_table_by_type _ _ _ _ _ Ei) as Ki.
    pose proof (hit_table_by_type _ _ _ _ _ E1) as K1.
    rewrite Ki in K1. discriminate K1.
  - pose proof (hit_table_by_type _ _ _ _ _ Ei) as Ki.
    pose proof (hit_table_by_type _ _ _ _ _ E1) as K1.
    rewrite Ki in K1. discriminate K1.
Qed.

(** Showing the details can only add cells. *)
Lemma hit_ok_without_details search_type hit :
  hit_ok search_type true hit = true -> hit_ok search_type false hit = true.
Proof.
  rewrite (hit_ok_spec search_type true 1), (hit_ok_spec search_type false 1).
  pose proof (hit_table_defined search_type true 1 hit) as Ht.
  pose proof (hit_table_defined search_type false 1 hit) as Hf.
  assert (Hformats : hit_formats search_type true hit = true ->
                     hit_formats search_type false hit = true).
  { unfold hit_formats, package_source_ok.
    destruct (is_dict hit); [|discriminate]. cbn [andb].
    destruct ((search_type =? "packages") || (search_type =? "flakes"));
      [|exact (fun x => x)].
    cbn [negb orb]. intros Hok.
    apply andb_true_iff in Hok. destruct Hok as [Hok _].
    rewrite Hok. reflexivity. }
  destruct (hit_table search_type true 1 hit) as [[t|]|e] eqn:Et;
    [| |discriminate];
    cbn [completes] in Ht; rewrite <- Ht in Hformats;
    rewrite (Hformats eq_refl) in Hf;
    destruct (hit_table search_type false 1 hit) as [[f|]|e] eqn:Ef;
    try discriminate Hf; try reflexivity.
  - exact (hit_table_printable search_type 1 1 true false hit t f eq_refl Et Ef).
  - pose proof (hit_table_by_type _ _ _ _ _ Et) as Kt.
    pose proof (hit_table_by_type _ _ _ _ _ Ef) as Kf.
    rewrite Kt in Kf. discriminate Kf.
Qed.

Lemma tables_spaced (b : bool) items :
  tables (when b [Blank] ++ items) = tables items.
Proof. destruct b; reflexivity. Qed.

(** The loop gets to its end exactly when it gets past every hit, and
    then it has printed the hits' tables in order. *)
Lemma render_loop_tables items : forall i n search_type details compact,
  completes (result (_render_results_loop items i n search_type details
                       compact))
  = forallb (hit_ok search_type details) items
  /\ (result (_render_results_loop items i n search_type details compact)
      = Return tt ->
      hit_tables search_type details i items
      = Return (tables (effects (_render_results_loop items i n search_type
                                   details compact)))).
Proof.
  induction items as [|hit rest IH]; intros; [split; reflexivity|].
  rewrite render_loop_step. cbn [forallb hit_tables].
  rewrite (hit_ok_spec search_type details i hit).
  destruct (IH (i + 1)%Z n search_type details compact) as [IHc IHt].
  unfold result, effects in *.
  destruct (hit_table search_type details i hit) as [[t|]|e]; cbn [bind].
  - destruct (printable (Grid t)); [|split; [reflexivity|discriminate]].
    cbn [fst snd andb]. split; [exact IHc|].
    intros Hr. rewrite (IHt Hr). cbn [bind tables flat_map app].
    fold (tables (when (negb compact && (i <? n)%Z) [Blank]
                    ++ fst (_render_results_loop rest (i + 1) n search_type
                              details compact))).
    rewrite tables_spaced. reflexivity.
  - cbn [andb]. split; [exact IHc|].
    intros Hr. rewrite (IHt Hr). reflexivity.
  - split; [reflexivity|discriminate].
Qed.

(** What a completed table-mode run displayed: the "Found" line first,
    and the tables of the rendered hits in their order. *)
Lemma displayed_when_complete page l search_type total_value details compact :
  let out := deliver page
               (_render_results (PList l) search_type total_value details
                  compact) in
  result out = Return tt ->
  hd_error (shown (effects out)) = Some (found_line total_value (List.length l))
  /\ hit_tables search_type details 1 l = Return (tables (shown (effects out))).
Proof.
  intros out Hout. subst out. rewrite render_list in *.
  destruct (printable (found_line total_value (List.length l)));
    [|destruct page; discriminate Hout].
  destruct (render_loop_tables l 1 (Z.of_nat (List.length l)) search_type
              details compact) as [_ Ht].
  unfold result, effects in *.
  destruct (_render_results_loop l 1 (Z.of_nat (List.length l)) search_type
              details compact) as [printed r].
  cbn [fst snd] in *.
  destruct page; unfold deliver in *; cbn [fst snd] in *.
  - destruct r as [u|e]; [|discriminate]. cbn. rewrite app_nil_r.
    split; [reflexivity|]. apply Ht. destruct u. reflexivity.
  - rewrite shown_console. cbn. split; [reflexivity|]. apply Ht. exact Hout.
Qed.

(** Table mode on an empty hits list: the notice, and nothing else. *)
Lemma print_results_no_hits isatty data search_type details compact reverse
    use_pager :
  response_hits data = Return (PList []) ->
  print_results isatty data search_type details compact false reverse use_pager
  = ([ConsolePrint (Markup "[yellow]No results found.[/yellow]")], Return tt).
Proof.
  intros Hh. destruct (response_total_defined data _ Hh) as [tv Htv].
  unfold print_results. rewrite Hh, Htv, !ebind_lift_return. reflexivity.
Qed.

(** The pager is reached exactly by a paging run that rendered to the
    end. *)
Lemma deliver_pager page r :
  pager_invoked (effects (deliver page r)) = page && completes (snd r)
  /\ completes (result (deliver page r)) = completes (snd r).
Proof.
  destruct page, r as [printed [u|e]]; unfold deliver; cbn;
    rewrite ?pager_not_invoked_on_console; split; reflexivity.
Qed.

(** On a stream that is not a terminal, table mode never reaches the
    pager, whatever the flag. *)
Lemma no_pager_off_terminal data search_type details compact reverse use_pager :
  pager_invoked
    (effects (print_results false data search_type details compact false
                reverse use_pager)) = false.
Proof.
  unfold print_results.
  destruct (response_hits data) as [hits|e];
    [rewrite ebind_lift_return|reflexivity].
  destruct (response_total_value data) as [tv|e];
    [rewrite ebind_lift_return|reflexivity].
  destruct (negb (truthy hits)); [reflexivity|].
  destruct (if reverse then reversed hits else Return hits) as [hits'|e];
    [rewrite ebind_lift_return|reflexivity].
  destruct (match use_pager with Some b => Return b | None => _ end) as [b|e];
    [rewrite ebind_lift_return|reflexivity].
  rewrite andb_false_r.
  destruct (_render_results hits' search_type tv details compact) as [printed r].
  apply pager_not_invoked_on_console.
Qed.

(** Off a terminal the flag's value makes no difference. *)
Lemma forced_flag_ignored_off_terminal data search_type details compact
    reverse b :
  print_results false data search_type details compact false reverse (Some b)
  = print_results false data search_type details compact false reverse
      (Some false).
Proof.
  unfold print_results.
  destruct (response_hits data) as [hits|e];
    [rewrite !ebind_lift_return|reflexivity].
  destruct (response_total_value data) as [tv|e];
    [rewrite !ebind_lift_return|reflexivity].
  destruct (negb (truthy hits)); [reflexivity|].
  destruct (if reverse then reversed hits else Return hits) as [hits'|e];
    [rewrite !ebind_lift_return|reflexivity].
  rewrite !andb_false_r. reflexivity.
Qed.

(** A table-mode run returns exactly when there is no hit, or rich prints
    the "Found" line and the loop gets past every hit. *)
Lemma print_results_defined isatty data search_type details compact reverse
    use_pager hs total_value :
  response_hits data = Return (PList hs) ->
  response_total_value data = Return total_value ->
  completes (result (print_results isatty data search_type details compact
                       false reverse use_pager))
  = match hs with
    | [] => true
    | _ => printable (found_line total_value (List.length hs))
           && forallb (hit_ok search_type details) hs
    end.
Proof.
  intros Hh Htv. destruct hs as [|h hs'].
  - rewrite (print_results_no_hits _ _ _ _ _ _ _ Hh). reflexivity.
  - destruct (print_results_table_mode isatty data search_type details compact
                reverse use_pager (h :: hs') Hh ltac:(discriminate))
      as [tv [Htv' ->]].
    rewrite Htv in Htv'. injection Htv' as <-.
    destruct (deliver_pager (paging use_pager (List.length (h :: hs')) isatty)
                (_render_results
                   (PList (if reverse then rev (h :: hs') else h :: hs'))
                   search_type total_value details compact)) as [_ ->].
    rewrite render_list.
    replace (List.length (if reverse then rev (h :: hs') else h :: hs'))
      with (List.length (h :: hs'))
      by (destruct reverse; [rewrite length_rev|]; reflexivity).
    destruct (printable (found_line total_value (List.length (h :: hs'))));
      [|reflexivity].
    cbn [snd andb].
    destruct (render_loop_tables
                (if reverse then rev (h :: hs') else h :: hs') 1
                (Z.of_nat (List.length (h :: hs')))
                search_type details compact) as [Hr _].
    unfold result in Hr. rewrite Hr.
    destruct reverse; [apply forallb_rev|reflexivity].
Qed.

(** The pager in table mode: chosen, and the rendering got to its end. *)
Lemma pager_in_table_mode isatty data search_type details compact reverse
    use_pager hs total_value :
  response_hits data = Return (PList hs) -> hs <> [] ->
  response_total_value data = Return total_value ->
  pager_invoked
    (effects (print_results isatty data search_type details compact false
                reverse use_pager))
  = paging use_pager (List.length hs) isatty
    && (printable (found_line total_value (List.length hs))
        && forallb (hit_ok search_type details) hs).
Proof.
  intros Hh Hne Htv.
  pose proof (print_results_defined isatty data search_type details compact
                reverse use_pager hs total_value Hh Htv) as Hdef.
  destruct hs as [|h hs']; [contradiction|]. rewrite <- Hdef.
  destruct (print_results_table_mode isatty data search_type details compact
              reverse use_pager (h :: hs') Hh Hne) as [tv [_ ->]].
  destruct (deliver_pager (paging use_pager (List.length (h :: hs')) isatty)
              (_render_results
                 (PList (if reverse then rev (h :: hs') else h :: hs'))
                 search_type tv details compact)) as [-> ->].
  reflexivity.
Qed.

Lemma str_take_length n s :
  String.length (str_take n s) = Nat.min n (String.length s).
Proof.
  unfold str_take. revert n.
  induction s as [|c s IH]; intros [|n]; simpl; auto.
Qed.

(** C6: on a response with a non-empty hits list, [reverse] hands the
    renderer the hits in exactly the reverse of the array order, with the
    same total and the same pager choice.  When rich prints the "Found"
    line and the loop gets past every hit (its table is built and rich
    prints it), both runs return, both show the same "Found <total>
    results" line first, and the tables shown are those of the hits in
    array order for the plain run and in reversed order for the reversed
    run.  Reversing twice restores the display: a reversed run on a
    response whose hits are already reversed is the plain run. *)
Theorem reverse_shows_hits_in_reverse_order isatty data data' search_type
    details compact use_pager hs :
  response_hits data = Return (PList hs) -> hs <> [] ->
  let plain := print_results isatty data search_type details compact false
                 false use_pager in
  let reversed_ := print_results isatty data search_type details compact false
                     true use_pager in
  (exists total_value,
     response_total_value data = Return total_value
     /\ plain = deliver (paging use_pager (List.length hs) isatty)
                  (_render_results (PList hs) search_type total_value details
                     compact)
     /\ reversed_ = deliver (paging use_pager (List.length hs) isatty)
                      (_render_results (PList (rev hs)) search_type
                         total_value details compact)
     /\ (printable (found_line total_value (List.length hs)) = true ->
         forallb (hit_ok search_type details) hs = true ->
         result plain = Return tt
         /\ result reversed_ = Return tt
         /\ hd_error (shown (effects plain))
            = Some (found_line total_value (List.length hs))
         /\ hd_error (shown (effects reversed_))
            = Some (found_line total_value (List.length hs))
         /\ hit_tables search_type details 1 hs
            = Return (tables (shown (effects plain)))
         /\ hit_tables search_type details 1 (rev hs)
            = Return (tables (shown (effects reversed_)))))
  /\ (response_hits data' = Return (PList (rev hs)) ->
      response_total_value data' = response_total_value data ->
      print_results isatty data' search_type details compact false true
        use_pager = plain).
Proof.
  intros Hh Hne plain reversed_.
  subst plain reversed_.
  destruct (print_results_table_mode isatty data search_type details compact
              false use_pager hs Hh Hne) as [tv [Htv Hplain]].
  destruct (print_results_table_mode isatty data search_type details compact
              true use_pager hs Hh Hne) as [tv' [Htv' Hrev]].
  rewrite Htv in Htv'. injection Htv' as <-.
  assert (Hdef : forall r,
            printable (found_line tv (List.length hs)) = true ->
            forallb (hit_ok search_type details) hs = true ->
            result (print_results isatty data search_type details compact
                      false r use_pager) = Return tt).
  { intros r Hfound Hok. apply completes_unit.
    rewrite (print_results_defined _ _ _ _ _ _ _ hs tv Hh Htv).
    destruct hs; [reflexivity|]. rewrite Hfound, Hok. reflexivity. }
  split.
  - exists tv.
    split; [exact Htv|]. split; [exact Hplain|]. split; [exact Hrev|].
    intros Hfound Hok.
    pose proof (Hdef false Hfound Hok) as Hp.
    pose proof (Hdef true Hfound Hok) as Hr.
    split; [exact Hp|]. split; [exact Hr|].
    rewrite Hplain in Hp |- *. rewrite Hrev in Hr |- *.
    destruct (displayed_when_complete _ hs search_type tv details compact Hp)
      as [Hp1 Hp2].
    replace (paging use_pager (List.length hs) isatty)
      with (paging use_pager (List.length (rev hs)) isatty) in Hr |- *
      by (rewrite length_rev; reflexivity).
    destruct (displayed_when_complete _ (rev hs) search_type tv details
                compact Hr) as [Hr1 Hr2].
    rewrite length_rev in Hr1, Hr2 |- *.
    repeat split; assumption.
  - intros Hh' Htot.
    assert (Hne' : rev hs <> [])
      by (intros Hnil; apply Hne;
          rewrite <- (rev_involutive hs), Hnil; reflexivity).
    destruct (print_results_table_mode isatty data' search_type details
                compact true use_pager (rev hs) Hh' Hne') as [tv'' [Htv'' Hrr]].
    rewrite Htot, Htv in Htv''. injection Htv'' as <-.
    rewrite Hrr, Hplain, rev_involutive, length_rev. reflexivity.
Qed.

(** C8 as the specification words it fails when a hit cannot be rendered:
    on a terminal, with the pager flag unset, a response of eleven hits of
    which the first is the number 7 raises in the loop over the hits, which
    runs before the pager is called, and the pager is not invoked though
    there are more than 10 hits. *)
Lemma eleven_hits_without_pager :
  pager_invoked
    (effects (@print_results sample_builtins true
                (response 11 (PInt 7 :: repeat (PDict []) 10)) "packages"
                false false false false None))
  <> (10 <? Z.of_nat (List.length (PInt 7 :: repeat (PDict []) 10)))%Z.
Proof. vm_compute. discriminate. Qed.


(** C9: in JSON mode a forced-on pager gets the JSON text whether or not
    stdout is a terminal; in table mode the pager is reached only on a
    terminal: off one, a forced-on pager is ignored, the run being the same
    as with the pager forced off, while on a terminal a forced-on run over
    a non-empty hits list reaches the pager exactly when the rendering gets
    to its end: rich prints the "Found" line and every hit's table is built
    and printed. *)
Theorem forced_pager_gating isatty data search_type details compact reverse :
  print_results isatty data search_type details compact true reverse (Some true)
    = ([Pager (Text (json_dumps_indent2 data))], Return tt)
  /\ pager_invoked
       (effects (print_results false data search_type details compact false
                   reverse (Some true))) = false
  /\ print_results false data search_type details compact false reverse
       (Some true)
     = print_results false data search_type details compact false reverse
         (Some false)
  /\ (forall hs total_value,
        response_hits data = Return (PList hs) -> hs <> [] ->
        response_total_value data = Return total_value ->
        pager_invoked
          (effects (print_results true data search_type details compact false
                      reverse (Some true)))
        = printable (found_line total_value (List.length hs))
          && forallb (hit_ok search_type details) hs).
Proof.
  split; [reflexivity|].
  split; [apply no_pager_off_terminal|].
  split; [apply forced_flag_ignored_off_terminal|].
  intros hs tv Hh Hne Htv.
  rewrite (pager_in_table_mode true data search_type details compact reverse
             (Some true) hs tv Hh Hne Htv).
  reflexivity.
Qed.

(** The rows of a table that was returned. *)
Lemma option_detail_rows fields index table :
  format_option_result_table (PDict fields) index true = Return table ->
  rows_labelled "Default" table
    = (if truthy (field (PDict fields) "option_default" PNone)
       then [("Default",
              "[yellow]"
                ++ str_take 100 (str (field (PDict fields) "option_default" PNone))
                ++ "[/yellow]")]
       else [])
  /\ rows_labelled "Example" table
     = (if truthy (field (PDict fields) "option_example" PNone)
        then [("Example",
               "[green]"
                 ++ str_take 100 (str (field (PDict fields) "option_example" PNone))
                 ++ "[/green]")]
        else []).
Proof.
  unfold format_option_result_table, field. cbn [get bind].
  set (default := match lookup "option_default" fields with
                  | Some v => v | None => PNone end).
  set (example := match lookup "option_example" fields with
                  | Some v => v | None => PNone end).
  destruct (truthy (match lookup "option_type" fields with
                    | Some v => v | None => PStr "" end));
    (destruct (truthy (match lookup "option_description" fields with
                       | Some v => v | None => PStr "" end));
     [destruct (description_cell _ _) as [desc|e]; [|discriminate]|]);
    cbn [bind]; destruct (truthy default), (truthy example);
    intros [= <-]; split; reflexivity.
Qed.

(** C10: an option hit whose description is a str (or falsy) is rendered
    with details into a table that has a Default row exactly when the value
    of option_default is truthy, and an Example row exactly when the value
    of option_example is; the cell is the value's [str], cut to its first
    100 characters with no ellipsis, between the colour tags.  False, 0,
    the empty string and None are not truthy, so such a value gives no row
    though the field is present. *)
Theorem default_and_example_rows_need_truthy_values fields index :
  cell_ok (field (PDict fields) "option_description" (PStr "")) = true ->
  let default := field (PDict fields) "option_default" PNone in
  let example := field (PDict fields) "option_example" PNone in
  exists table,
    format_option_result_table (PDict fields) index true = Return table
    /\ rows_labelled "Default" table
       = (if truthy default
          then [("Default",
                 "[yellow]" ++ str_take 100 (str default) ++ "[/yellow]")]
          else [])
    /\ rows_labelled "Example" table
       = (if truthy example
          then [("Example",
                 "[green]" ++ str_take 100 (str example) ++ "[/green]")]
          else [])
    /\ String.length (str_take 100 (str default))
       = Nat.min 100 (String.length (str default))
    /\ String.length (str_take 100 (str example))
       = Nat.min 100 (String.length (str example))
    /\ Forall (fun v => truthy v = false) [PBool false; PInt 0; PStr ""; PNone].
Proof.
  intros Hdesc default example.
  pose proof (format_option_defined (PDict fields) index true) as Hdef.
  unfold option_source_ok in Hdef. rewrite Hdesc in Hdef.
  destruct (format_option_result_table (PDict fields) index true)
    as [table|e] eqn:Hfmt; [|discriminate].
  exists table. split; [reflexivity|].
  destruct (option_detail_rows fields index table Hfmt) as [Hd He].
  split; [exact Hd|]. split; [exact He|].
  split; [apply str_take_length|]. split; [apply str_take_length|].
  repeat constructor.
Qed.

End WithBuiltins.

(** Two option hits, shown plain and reversed. *)
Lemma reverse_shows_hits_in_reverse_order_witness :
  let a := PDict [("_source", PDict [("option_name", PStr "services.a")])] in
  let b := PDict [("_source", PDict [("option_name", PStr "services.b")])] in
  @print_results sample_builtins false (response 2 [b; a]) "options" false
    false false true None
  = @print_results sample_builtins false (response 2 [a; b]) "options" false
      false false false None.
Proof.
  intros a b.
  exact (proj2 (@reverse_shows_hits_in_reverse_order sample_builtins false
                  (response 2 [a; b]) (response 2 [b; a]) "options" false
                  false None [a; b] eq_refl ltac:(discriminate))
               eq_refl eq_refl).
Defined.


(** One hit with the pager forced on, on a terminal. *)
Lemma forced_pager_gating_witness :
  pager_invoked
    (effects (@print_results sample_builtins true (response 1 [PDict []])
                "packages" false false false false (Some true)))
  = true.
Proof.
  exact (proj2 (proj2 (proj2
           (@forced_pager_gating sample_builtins true (response 1 [PDict []])
              "packages" false false false)))
           [PDict []] (PInt 1) eq_refl ltac:(discriminate) eq_refl).
Defined.

(** An option whose default is False and whose example is "x". *)
Lemma default_and_example_rows_need_truthy_values_witness :
  exists table,
    @format_option_result_table sample_builtins
      (PDict [("option_name", PStr "services.a.enable");
              ("option_default", PBool false);
              ("option_example", PStr "x")]) 1 true = Return table
    /\ rows_labelled "Default" table = []
    /\ rows_labelled "Example" table = [("Example", "[green]x[/green]")].
Proof.
  destruct (@default_and_example_rows_need_truthy_values sample_builtins
              [("option_name", PStr "services.a.enable");
               ("option_default", PBool false);
               ("option_example", PStr "x")] 1 eq_refl)
    as [table [Hfmt [Hdefault [Hexample _]]]].
  exists table. split; [exact Hfmt|]. split; [exact Hdefault|exact Hexample].
Defined.

End FormatterFacts.

(** ** A whole run *)

Module EndToEnd.

Import Client Formatter Cli Observe FormatterFacts.

Section WithBuiltins.
Context `{Builtins}.

(** C7: on a response whose hits list is empty, table-mode rendering
    prints the no-results notice and returns, having built no table and
    called no pager; a run of [main] that passed validation and received
    such a response does the one request, prints the notice, and the
    process exits with status 0. *)
Theorem no_results_notice_and_exit_zero net isatty data query name program
    version platform channel search_type size from_ details compact reverse
    use_pager base_url :
  response_hits data = Return (PList []) ->
  let rendering := print_results isatty data search_type details compact
                     false reverse use_pager in
  rendering
    = ([ConsolePrint (Markup "[yellow]No results found.[/yellow]")], Return tt)
  /\ tables (shown (effects rendering)) = []
  /\ pager_invoked (effects rendering) = false
  /\ (validate query name program version size from_ = Return tt ->
      (forall url body auth timeout,
         net url body auth timeout = Response data) ->
      let run := main net isatty query name program version platform channel
                   search_type size from_ details compact reverse false
                   use_pager base_url in
      exit_status (result run) = 0%Z
      /\ effects run
         = [Construct (__init__ base_url None None);
            ClientEffect
              (Post (search_endpoint (__init__ base_url None None)
                       (search_index channel search_type))
                    (search_body query name program version platform
                       search_type size from_)
                    (username (__init__ base_url None None),
                     password (__init__ base_url None None))
                    REQUEST_TIMEOUT);
            Output (ConsolePrint (Markup "[yellow]No results found.[/yellow]"))]).
Proof.
  intros Hh rendering. subst rendering.
  rewrite (print_results_no_hits _ _ _ _ _ _ _ Hh).
  split; [reflexivity|]. split; [reflexivity|]. split; [reflexivity|].
  intros Hv Hnet run. subst run.
  unfold main. rewrite Hv, ebind_lift_return, ebind_emit.
  unfold search. rewrite Hnet, ebind_emit.
  unfold via, eret, ebind. cbn [fst snd map].
  rewrite (print_results_no_hits _ _ _ _ _ _ _ Hh).
  split; reflexivity.
Qed.

End WithBuiltins.

(** A search for "zzz" that finds nothing. *)
Lemma no_results_notice_and_exit_zero_witness :
  exit_status
    (result (@main sample_builtins (fun _ _ _ _ => Response (response 0 []))
               true "zzz" None None None None "unstable" "packages" 20 0
               false false false false None "https://search.nixos.org"))
  = 0%Z.
Proof.
  exact (proj1 (proj2 (proj2 (proj2
           (@no_results_notice_and_exit_zero sample_builtins
              (fun _ _ _ _ => Response (response 0 [])) true (response 0 [])
              "zzz" None None None None "unstable" "packages" 20 0
              false false false None "https://search.nixos.org" eq_refl)))
           eq_refl (fun _ _ _ _ => eq_refl))).
Defined.

End EndToEnd.

(** ** Shell completion *)

Module CompletionFacts.

Import Completion.

Lemma platforms_nodup : NoDup platforms.
Proof.
  unfold platforms.
  repeat (constructor; [simpl; intuition discriminate|]). constructor.
Qed.

Lemma channels_nodup : NoDup channels.
Proof.
  unfold channels.
  repeat (constructor; [simpl; intuition discriminate|]). constructor.
Qed.

(** X1: the suggestions for a typed text are exactly the known platforms
    (channels) that start with it, each once; the empty text suggests all
    of them and a complete name suggests only itself. *)
Theorem completions_are_the_matching_names incomplete :
  (forall p, In p (complete_platforms incomplete)
             <-> In p platforms /\ startswith p incomplete = true)
  /\ (forall c, In c (complete_channels incomplete)
                <-> In c channels /\ startswith c incomplete = true)
  /\ NoDup (complete_platforms incomplete)
  /\ NoDup (complete_channels incomplete)
  /\ complete_platforms "" = platforms
  /\ complete_channels "" = channels
  /\ Forall (fun p => complete_platforms p = [p]) platforms
  /\ Forall (fun c => complete_channels c = [c]) channels.
Proof.
  split; [intros p; exact (filter_In (fun x => startswith x incomplete) p platforms)|].
  split; [intros c; exact (filter_In (fun x => startswith x incomplete) c channels)|].
  split; [apply NoDup_filter, platforms_nodup|].
  split; [apply NoDup_filter, channels_nodup|].
  split; [reflexivity|]. split; [reflexivity|].
  split; repeat constructor.
Qed.

End CompletionFacts.

(** ** The client's base URL *)

Module BaseUrlFacts.

Import Client Views.

Lemma rstrip_slash_spec s :
  (exists k, s = rstrip_slash s ++ slashes k)
  /\ last_char (rstrip_slash s) <> Some "/"%char.
Proof.
  induction s as [|c s [[k Hk] Hlast]]; simpl.
  - split; [exists 0%nat; reflexivity|discriminate].
  - destruct (rstrip_slash s) as [|a t] eqn:Hr.
    + destruct (Ascii.eqb_spec c "/"%char) as [->|Hc].
      * split; [exists (S k); simpl; rewrite Hk at 1; reflexivity|discriminate].
      * split; [exists k; simpl; rewrite Hk at 1; reflexivity|].
        simpl. congruence.
    + split; [exists k; simpl; rewrite Hk at 1; reflexivity|].
      exact Hlast.
Qed.

Lemma rstrip_slash_fixed s :
  last_char s <> Some "/"%char -> rstrip_slash s = s.
Proof.
  induction s as [|c s IH]; [reflexivity|].
  intros Hl. simpl. destruct s as [|a t].
  - simpl in *. destruct (Ascii.eqb_spec c "/"%char); congruence.
  - rewrite IH by exact Hl. reflexivity.
Qed.

(** X2: The stored base URL is the given one without its trailing slashes. *)
Theorem base_url_loses_its_trailing_slashes url user pass :
  let client := __init__ url user pass in
  (exists k, url = base_url client ++ slashes k)
  /\ last_char (base_url client) <> Some "/"%char
  /\ __init__ (base_url client) user pass = client
  /\ (forall index,
        search_endpoint client index
        = base_url client ++ "/backend/" ++ index ++ "/_search").
Proof.
  intros client. subst client. unfold __init__. cbn [base_url].
  destruct (rstrip_slash_spec url) as [Hk Hl].
  split; [exact Hk|]. split; [exact Hl|].
  split; [rewrite (rstrip_slash_fixed _ Hl); reflexivity|].
  intros index. reflexivity.
Qed.

End BaseUrlFacts.

(** ** The clauses of a query and the names of the indices *)

Module QueryFacts.

Import Client Observe Views.

(** The must list, clause by clause. *)
Lemma must_clauses_by_input query name program version platform search_type :
  must_clauses (_build_query query name program version platform search_type)
  = match (when (str_truthy query)
             [PDict [("dis_max", PDict [("queries", PList [
                PDict [("multi_match", PDict [
                  ("query", PStr query);
                  ("type", PStr "cross_fields");
                  ("fields", if search_type =? "packages"
                             then package_fields else option_fields)])]])])]]
           ++ provided "package_attr_name" name
           ++ provided "package_programs" program
           ++ provided "package_pversion" version
           ++ match platform with
              | Some p => when (str_truthy p) [platform_term p]
              | None => []
              end)%list with
    | [] => [PDict [("match_all", PDict [])]]
    | clauses => clauses
    end.
Proof.
  unfold _build_query, must_clauses, provided, platform_term, when,
    package_fields, option_fields.
  cbv zeta. cbn [get bind lookup String.eqb Ascii.eqb Bool.eqb].
  set (fields := if search_type =? "packages" then _ else _).
  set (D := PDict [("dis_max", _)]).
  destruct (str_truthy query);
    (destruct name as [name|]; [destruct (str_truthy name)|]);
    (destruct program as [program|]; [destruct (str_truthy program)|]);
    (destruct version as [version|]; [destruct (str_truthy version)|]);
    (destruct platform as [platform|]; [destruct (str_truthy platform)|]);
    reflexivity.
Qed.

(** Case analysis on the five inputs, the free-text clause kept folded. *)
Ltac by_input query name program version platform :=
  rewrite !must_clauses_by_input;
  unfold provided, platform_term, when, given;
  match goal with
  | |- context [PDict [("dis_max", ?d)]] =>
      let D := fresh "D" in
      set (D := PDict [("dis_max", d)]);
      assert (has_kind "dis_max" D = true) by reflexivity;
      assert (has_kind "match_all" D = false) by reflexivity;
      assert (has_kind "term" D = false) by reflexivity;
      assert (has_kind "wildcard" D = false) by reflexivity;
      clearbody D
  end;
  destruct (str_truthy query);
  (destruct name as [name|]; cbn [opt_truthy]; [destruct (str_truthy name)|]);
  (destruct program as [program|]; cbn [opt_truthy];
   [destruct (str_truthy program)|]);
  (destruct version as [version|]; cbn [opt_truthy];
   [destruct (str_truthy version)|]);
  (destruct platform as [platform|]; cbn [opt_truthy];
   [destruct (str_truthy platform)|]);
  cbn [app filter existsb List.length];
  repeat match goal with
         | Hk : has_kind _ _ = _ |- _ => rewrite !Hk
         end.

(** X3: The must list has one clause per truthy input, and the match_all
    clause stands in exactly when there is none. *)
Theorem must_has_one_clause_per_input query name program version platform
    search_type :
  let must := must_clauses
                (_build_query query name program version platform search_type) in
  List.length must = Nat.max 1 (given query name program version platform)
  /\ existsb (has_kind "match_all") must
     = (given query name program version platform =? 0)%nat
  /\ List.length (filter (has_kind "dis_max") must)
     = (if str_truthy query then 1 else 0)%nat.
Proof.
  cbv zeta.
  by_input query name program version platform; repeat split; reflexivity.
Qed.

Lemma match_all_when_nothing_given query name program version platform
    search_type :
  existsb (has_kind "match_all")
    (must_clauses (_build_query query name program version platform search_type))
  = (given query name program version platform =? 0)%nat.
Proof.
  by_input query name program version platform; reflexivity.
Qed.

(** X4: The platform filter is an exact term clause on package_platforms. *)
Theorem platform_is_an_exact_term query name program version platform
    search_type :
  filter (has_kind "term")
    (must_clauses (_build_query query name program version platform search_type))
  = match platform with
    | Some p => if str_truthy p then [platform_term p] else []
    | None => []
    end
  /\ filter (has_kind "wildcard")
       (must_clauses (_build_query query name program version platform
                        search_type))
     = filter (has_kind "wildcard")
         (must_clauses (_build_query query name program version None
                          search_type)).
Proof.
  by_input query name program version platform; split; reflexivity.
Qed.

Lemma length_append_ge (a b : string) :
  (String.length b <= String.length (a ++ b))%nat.
Proof. induction a; simpl; lia. Qed.

Lemma not_unstable c suffix :
  (8 <= String.length suffix)%nat -> suffix <> "unstable" ->
  (c ++ suffix =? "unstable") = false.
Proof.
  intros Hlen Hne. apply String.eqb_neq. intros Heq.
  assert (Hl : String.length (c ++ suffix) = 8%nat) by (rewrite Heq; reflexivity).
  destruct c as [|a c]; [simpl in Heq; contradiction|].
  pose proof (length_append_ge c suffix). simpl in Hl. lia.
Qed.

(** X5: The channel is not checked, so index names of different search types
    can coincide. *)
Theorem index_names_can_coincide channel :
  search_index (channel ++ "-options") "packages"
    = search_index channel "options"
  /\ search_index "flakes" "packages" = search_index channel "flakes"
  /\ (forall search_type,
        (search_type =? "flakes") = false ->
        (search_type =? "options") = false ->
        search_index channel search_type = search_index channel "packages").
Proof.
  split; [|split; [reflexivity|]].
  - unfold search_index. cbn [String.eqb Ascii.eqb Bool.eqb].
    change ("packages" =? "flakes") with false.
    change ("packages" =? "options") with false.
    change ("options" =? "flakes") with false.
    change ("options" =? "options") with true. cbv iota.
    rewrite not_unstable by (simpl; first [lia | discriminate]).
    destruct (channel =? "unstable") eqn:Hc.
    + apply String.eqb_eq in Hc. subst channel. reflexivity.
    + reflexivity.
  - intros st Hf Ho. unfold search_index. rewrite Hf, Ho. reflexivity.
Qed.

(** A search type that is neither flakes nor options reads the packages
    index. *)
Lemma index_names_can_coincide_witness :
  search_index "unstable" "apps" = search_index "unstable" "packages".
Proof.
  exact (proj2 (proj2 (index_names_can_coincide "unstable"))
           "apps" eq_refl eq_refl).
Defined.

End QueryFacts.

(** ** What a run of [main] does *)

Module RunFacts.

Import Client Formatter Cli Observe Views ClientFacts FormatterRaises
  FormatterFacts.

Lemma requests_outputs (out : list output) : requests (map Output out) = [].
Proof. induction out; simpl; auto. Qed.



Lemma accepted_validate query name program version size from_ :
  accepted query name program version size from_ = true ->
  validate query name program version size from_ = Return tt.
Proof. unfold accepted. apply completes_unit. Qed.

Section WithBuiltins.
Context `{Builtins}.

(** A rejected run does nothing. *)
Lemma main_rejected net isatty query name program version platform channel
    search_type size from_ details compact reverse json_output pager base_url :
  accepted query name program version size from_ = false ->
  effects (main net isatty query name program version platform channel
             search_type size from_ details compact reverse json_output pager
             base_url) = [].
Proof.
  unfold accepted, main. destruct (validate _ _ _ _ _ _); [discriminate|].
  reflexivity.
Qed.

(** An accepted run: the client, the one request, and then what the
    answer calls for. *)
Lemma main_accepted net isatty query name program version platform channel
    search_type size from_ details compact reverse json_output pager base_url :
  accepted query name program version size from_ = true ->
  let call := the_request base_url query name program version platform
                channel search_type size from_ in
  let post := ClientEffect
                (Post (fst (fst (fst call))) (snd (fst (fst call)))
                   (snd (fst call)) (snd call)) in
  main net isatty query name program version platform channel search_type
    size from_ details compact reverse json_output pager base_url
  = match answer net call with
    | Response data =>
        let rendering := print_results isatty data search_type details compact
                           json_output reverse pager in
        (Construct (__init__ base_url None None) :: post
           :: map Output (effects rendering),
         result rendering)
    | RequestException e =>
        ([Construct (__init__ base_url None None); post;
          ClientEffect (Stderr ("Error making request: " ++ e))],
         Raise (SystemExit 1))
    | JSONDecodeError e =>
        ([Construct (__init__ base_url None None); post;
          ClientEffect (Stderr ("Error parsing JSON response: " ++ e))],
         Raise (SystemExit 1))
    end.
Proof.
  intros Hacc call post. subst call post.
  unfold main. rewrite (accepted_validate _ _ _ _ _ _ Hacc).
  rewrite ebind_lift_return, ebind_emit.
  unfold search, the_request, answer, search_endpoint, __init__, REQUEST_TIMEOUT.
  cbn [fst snd Client.base_url Client.username Client.password str_or].
  destruct (net _ _ _ _) as [data|e|e].
  - rewrite ebind_emit. unfold via, eret, ebind. cbn [fst snd map].
    destruct (print_results isatty data search_type details compact
                json_output reverse pager) as [out r]. reflexivity.
  - reflexivity.
  - reflexivity.
Qed.

(** The network activity of a run. *)
Lemma main_requests net isatty query name program
    version platform channel search_type size from_ details compact reverse
    json_output pager base :
  requests (effects (main net isatty query name program version platform
                       channel search_type size from_ details compact reverse
                       json_output pager base))
  = if accepted query name program version size from_
    then [the_request base query name program version platform channel
            search_type size from_]
    else [].
Proof.
  destruct (accepted query name program version size from_) eqn:Hacc.
  - rewrite (main_accepted _ _ _ _ _ _ _ _ _ _ _ _ _ _ _ _ _ Hacc).
    cbv zeta. unfold the_request, answer.
    destruct (net _ _ _ _); cbn [effects fst snd requests flat_map app];
      rewrite ?requests_outputs; reflexivity.
  - rewrite (main_rejected _ _ _ _ _ _ _ _ _ _ _ _ _ _ _ _ _ Hacc). reflexivity.
Qed.

Lemma accepted_window query name program version size from_ :
  accepted query name program version size from_ = true ->
  (str_truthy query || opt_truthy name || opt_truthy program
   || opt_truthy version = true)
  /\ (1 <= size <= 10000)%Z /\ (0 <= from_ <= 9999)%Z
  /\ (from_ + size <= 10000)%Z.
Proof.
  unfold accepted, validate, MAX_RESULTS.
  destruct (str_truthy query || opt_truthy name || opt_truthy program
            || opt_truthy version); [|discriminate].
  cbn [negb].
  destruct (Z.leb_spec size 0); [discriminate|].
  destruct (Z.ltb_spec from_ 0); [discriminate|].
  destruct (Z.ltb_spec 10000 (from_ + size)); [discriminate|].
  intros _. repeat split; lia.
Qed.

(** X7: Every request asks for a window inside the first 10000 results. *)
Theorem requested_window_is_within_limit net isatty query name program
    version platform channel search_type size from_ details compact reverse
    json_output pager base :
  Forall (fun call =>
            body_item "size" (snd (fst (fst call))) = Some (PInt size)
            /\ body_item "from" (snd (fst (fst call))) = Some (PInt from_)
            /\ (1 <= size <= 10000)%Z /\ (0 <= from_ <= 9999)%Z
            /\ (from_ + size <= 10000)%Z)
    (requests (effects (main net isatty query name program version platform
                          channel search_type size from_ details compact
                          reverse json_output pager base))).
Proof.
  rewrite main_requests.
  destruct (accepted query name program version size from_) eqn:Hacc;
    [|constructor].
  constructor; [|constructor].
  destruct (accepted_window _ _ _ _ _ _ Hacc) as [_ [Hs [Hf Hw]]].
  unfold the_request. cbn [fst snd].
  destruct (search_body_items query name program version platform search_type
              size from_) as [q [_ ->]].
  repeat split; solve [reflexivity | lia].
Qed.

(** X6: A run makes one request when the input is accepted and none
    otherwise; the request is fixed by the search inputs and the base URL
    alone. *)
Theorem one_request_with_builtin_credentials net isatty query name program
    version platform channel search_type size from_ details compact reverse
    json_output pager base :
  requests (effects (main net isatty query name program version platform
                       channel search_type size from_ details compact reverse
                       json_output pager base))
  = (if accepted query name program version size from_
     then [(rstrip_slash base ++ "/backend/"
              ++ search_index channel search_type ++ "/_search",
            search_body query name program version platform search_type
              size from_,
            ("aWVSALXpZv", "X8gPHnzL52wFEekuxsfQ9cSh"),
            30%Z)]
     else [])
  /\ (forall net' isatty' details' compact' reverse' json_output' pager',
        requests (effects (main net' isatty' query name program version
                             platform channel search_type size from_ details'
                             compact' reverse' json_output' pager' base))
        = requests (effects (main net isatty query name program version
                               platform channel search_type size from_ details
                               compact reverse json_output pager base))).
Proof.
  split; [apply main_requests|].
  intros. rewrite !main_requests. reflexivity.
Qed.

Lemma must_clauses_of_body query name program version platform search_type
    size from_ :
  must_clauses (search_body query name program version platform search_type
                  size from_)
  = must_clauses (_build_query query name program version platform search_type).
Proof.
  destruct (search_body_items query name program version platform search_type
              size from_) as [q [-> ->]].
  reflexivity.
Qed.

Lemma given_positive query name program version platform :
  str_truthy query || opt_truthy name || opt_truthy program
  || opt_truthy version = true ->
  (given query name program version platform =? 0)%nat = false.
Proof.
  unfold given.
  destruct (str_truthy query), (opt_truthy name), (opt_truthy program),
    (opt_truthy version), (opt_truthy platform);
    simpl; intros; solve [reflexivity | discriminate].
Qed.

(** X8: The match-all query never leaves the program: a run with no search
    term is rejected, a platform filter alone included. *)
Theorem match_all_is_never_requested net isatty query name program version
    platform channel search_type size from_ details compact reverse
    json_output pager base :
  Forall (fun call =>
            existsb (has_kind "match_all")
              (must_clauses (snd (fst (fst call)))) = false)
    (requests (effects (main net isatty query name program version platform
                          channel search_type size from_ details compact
                          reverse json_output pager base)))
  /\ requests (effects (main net isatty "" None None None platform channel
                          search_type size from_ details compact reverse
                          json_output pager base)) = [].
Proof.
  rewrite !main_requests. split; [|reflexivity].
  destruct (accepted query name program version size from_) eqn:Hacc;
    [|constructor].
  constructor; [|constructor].
  destruct (accepted_window _ _ _ _ _ _ Hacc) as [Hterm _].
  unfold the_request. cbn [fst snd].
  rewrite must_clauses_of_body.
  rewrite QueryFacts.match_all_when_nothing_given.
  apply given_positive. exact Hterm.
Qed.



End WithBuiltins.



End RunFacts.

(** ** The rows of a table *)

Module TableFacts.

Import Formatter Observe Views Steps FormatterFacts.

Section WithBuiltins.
Context `{Builtins}.

(** The rows of a package table that was returned. *)
Lemma package_table_rows fields index details table :
  format_package_result_table (PDict fields) index details = Return table ->
  let source := PDict fields in
  let programs := field source "package_programs" (PList []) in
  let description := field source "package_description" (PStr "") in
  let homepage := field source "package_homepage" PNone in
  let license_name := field source "package_license_set" PNone in
  let maintainers := field source "package_maintainers" PNone in
  labels table
    = (["Package"]
         ++ when (truthy programs) ["Programs"]
         ++ when (truthy description) ["Description"]
         ++ when details
              (when (truthy homepage) ["Homepage"]
               ++ when (truthy license_name) ["License"]
               ++ when (truthy maintainers) ["Maintainers"])
         ++ ["Install"; ""])%list
  /\ rows_labelled "Install" table
     = [("Install",
         "[dim]nix-env -iA nixpkgs."
           ++ str (field source "package_attr_name" (PStr "unknown"))
           ++ "[/dim]")]
  /\ rows_labelled "" table
     = [("",
         "[dim]nix profile install nixpkgs#"
           ++ str (field source "package_attr_name" (PStr "unknown"))
           ++ "[/dim]")]
  /\ rows_labelled "Programs" table
     = when (truthy programs)
         match (shown <- slice_to MAX_PROGRAMS_DISPLAY programs ;;
                programs_str <- join_value " " shown ;;
                n <- len programs ;; Return (programs_str, n)) with
         | Return (shown, n) =>
             [("Programs",
               "[green]"
                 ++ (if (Z.of_nat MAX_PROGRAMS_DISPLAY <? n)%Z
                     then shown ++ " ... (+"
                            ++ str_of_int (n - Z.of_nat MAX_PROGRAMS_DISPLAY)
                            ++ " more)"
                     else shown)
                 ++ "[/green]")]
         | Raise _ => []
         end
  /\ rows_labelled "Description" table
     = when (truthy description)
         match description_cell MAX_DESCRIPTION_LENGTH description with
         | Return cell => [("Description", cell)]
         | Raise _ => []
         end
  /\ rows_labelled "Package" table
     = [("Package",
         if truthy (field source "package_pversion" (PStr "")) then
           "[dim]\[" ++ str_of_int index ++ "][/dim] [bold cyan]"
             ++ str (field source "package_attr_name" (PStr "unknown"))
             ++ "[/bold cyan] [dim]@[/dim] [yellow]"
             ++ str (field source "package_pversion" (PStr ""))
             ++ "[/yellow]"
         else
           "[dim]\[" ++ str_of_int index ++ "][/dim] [bold cyan]"
             ++ str (field source "package_attr_name" (PStr "unknown"))
             ++ "[/bold cyan]")]
  /\ rows_labelled "Homepage" table
     = when details
         (when (truthy homepage)
            [("Homepage",
              match homepage with
              | PList urls =>
                  join " " (map (fun url =>
                    "[link=" ++ str url ++ "]" ++ str url ++ "[/link]") urls)
              | _ => "[link=" ++ str homepage ++ "]" ++ str homepage ++ "[/link]"
              end)])
  /\ rows_labelled "License" table
     = when details
         (when (truthy license_name)
            match (part <- slice_to 3 license_name ;; join_value ", " part) with
            | Return licenses =>
                [("License", "[magenta]" ++ licenses ++ "[/magenta]")]
            | Raise _ => []
            end)
  /\ rows_labelled "Maintainers" table
     = when details
         (when (truthy maintainers)
            match (part <- slice_to 3 maintainers ;;
                   ms <- iter part ;;
                   names <- traverse (fun m =>
                     email <- get m "email" (PStr "") ;; get m "name" email) ms ;;
                   join_value ", " (PList names)) with
            | Return maint_str =>
                [("Maintainers", "[cyan]" ++ maint_str ++ "[/cyan]")]
            | Raise _ => []
            end).
Proof.
  intros Hfmt source programs description homepage license_name maintainers.
  subst source programs description homepage license_name maintainers.
  unfold format_package_result_table, field in *. fold_texts.
  cbn [get bind] in *.
  apply bind_return in Hfmt as [t1 [E1 Hfmt]].
  apply programs_step in E1 as [mP [HmP E1]].
  apply row_step in E1 as [R1 C1]. subst mP.
  apply bind_return in Hfmt as [t2 [E2 Hfmt]].
  apply (row_step _ _ _ _ (fun cell => cell)) in E2 as [R2 C2].
  apply bind_return in Hfmt as [t3 [E3 Hfmt]].
  injection Hfmt as <-.
  unfold labels, rows_labelled. cbn [rows add_row].
  destruct details.
  - apply bind_return in E3 as [t4 [E4 E5]].
    apply joined_step in E4. apply row_step in E4 as [R4 C4].
    apply maintainers_step in E5. apply row_step in E5 as [R5 C5].
    rewrite R5, R4, rows_when_add_row, R2, R1. cbn [rows add_row new_table].
    clear R1 R2 R4 R5.
    settle;
      destruct (truthy match lookup "package_homepage" fields with
                       | Some v => v
                       | None => PNone
                       end);
      try match goal with x : (string * Z)%type |- _ => destruct x end;
      repeat split; reflexivity.
  - injection E3 as <-. rewrite R2, R1. cbn [rows add_row new_table].
    clear R1 R2.
    settle; try match goal with x : (string * Z)%type |- _ => destruct x end;
      repeat split; reflexivity.
Qed.

(** The rows of an option table that was returned. *)
Lemma option_table_rows fields index details table :
  format_option_result_table (PDict fields) index details = Return table ->
  let source := PDict fields in
  let description := field source "option_description" (PStr "") in
  labels table
    = (["Option"]
         ++ when (truthy (field source "option_type" (PStr ""))) ["Type"]
         ++ when (truthy description) ["Description"]
         ++ when details
              (when (truthy (field source "option_default" PNone)) ["Default"]
               ++ when (truthy (field source "option_example" PNone))
                    ["Example"]))%list
  /\ rows_labelled "Option" table
     = [("Option",
         "[dim]\[" ++ str_of_int index ++ "][/dim] [bold magenta]"
           ++ str (field source "option_name" (PStr "unknown"))
           ++ "[/bold magenta]")]
  /\ rows_labelled "Type" table
     = when (truthy (field source "option_type" (PStr "")))
         [("Type",
           "[cyan]" ++ str (field source "option_type" (PStr "")) ++ "[/cyan]")]
  /\ rows_labelled "Description" table
     = when (truthy description)
         match description_cell MAX_OPTION_DESCRIPTION_LENGTH description with
         | Return cell => [("Description", cell)]
         | Raise _ => []
         end.
Proof.
  intros Hfmt source description. subst source description.
  unfold format_option_result_table, field in *.
  fold_text "[dim]\["; fold_text "][/dim] [bold magenta]";
  fold_text "[/bold magenta]"; fold_text "[cyan]"; fold_text "[/cyan]";
  fold_text "[yellow]"; fold_text "[/yellow]"; fold_text "[green]";
  fold_text "[/green]".
  cbn [get bind] in *.
  apply bind_return in Hfmt as [t1 [E1 Hfmt]].
  apply (row_step _ _ _ _ (fun cell => cell)) in E1 as [R1 C1].
  injection Hfmt as <-.
  unfold labels, rows_labelled.
  destruct details;
    rewrite ?rows_when_add_row, R1, rows_when_add_row;
    cbn [rows add_row new_table]; clear R1; settle;
    destruct (truthy match lookup "option_type" fields with
                     | Some v => v
                     | None => PStr ""
                     end);
    try destruct (truthy match lookup "option_default" fields with
                         | Some v => v
                         | None => PNone
                         end);
    try destruct (truthy match lookup "option_example" fields with
                         | Some v => v
                         | None => PNone
                         end);
    repeat split; reflexivity.
Qed.

(** X11: A package table has its rows in a fixed order: Package first, the
    two installation hints last, and Homepage, License and Maintainers
    only with details. *)
Theorem package_rows_come_in_a_fixed_order fields index details :
  package_source_ok details (PDict fields) = true ->
  let source := PDict fields in
  exists table,
    format_package_result_table source index details = Return table
    /\ labels table
       = (["Package"]
            ++ when (truthy (field source "package_programs" (PList [])))
                 ["Programs"]
            ++ when (truthy (field source "package_description" (PStr "")))
                 ["Description"]
            ++ when details
                 (when (truthy (field source "package_homepage" PNone))
                    ["Homepage"]
                  ++ when (truthy (field source "package_license_set" PNone))
                       ["License"]
                  ++ when (truthy (field source "package_maintainers" PNone))
                       ["Maintainers"])
            ++ ["Install"; ""])%list
    /\ rows_labelled "Install" table
       = [("Install",
           "[dim]nix-env -iA nixpkgs."
             ++ str (field source "package_attr_name" (PStr "unknown"))
             ++ "[/dim]")]
    /\ rows_labelled "" table
       = [("",
           "[dim]nix profile install nixpkgs#"
             ++ str (field source "package_attr_name" (PStr "unknown"))
             ++ "[/dim]")].
Proof.
  intros Hok source. subst source.
  pose proof (format_package_defined (PDict fields) index details) as Hdef.
  rewrite Hok in Hdef.
  destruct (format_package_result_table (PDict fields) index details)
    as [table|e] eqn:Hfmt; [|discriminate].
  exists table. split; [reflexivity|].
  destruct (package_table_rows fields index details table Hfmt)
    as [Hlabels [Hinstall [Hprofile _]]].
  split; [exact Hlabels|]. split; [exact Hinstall|exact Hprofile].
Qed.

(** X12: At most ten programs are listed, and the count of the others is shown
    exactly when there are more than ten. *)
Theorem programs_row_lists_ten_at_most fields index details programs :
  lookup "package_programs" fields = Some (PList (map PStr programs)) ->
  package_source_ok details (PDict fields) = true ->
  exists table,
    format_package_result_table (PDict fields) index details = Return table
    /\ rows_labelled "Programs" table
       = match programs with
         | [] => []
         | _ => [("Programs", programs_cell programs)]
         end
    /\ (List.length (firstn 10 programs) <= 10)%nat.
Proof.
  intros Hprog Hok.
  pose proof (format_package_defined (PDict fields) index details) as Hdef.
  rewrite Hok in Hdef.
  destruct (format_package_result_table (PDict fields) index details)
    as [table|e] eqn:Hfmt; [|discriminate].
  exists table. split; [reflexivity|].
  split; [|rewrite length_firstn; lia].
  destruct (package_table_rows fields index details table Hfmt)
    as [_ [_ [_ [Hrow _]]]].
  rewrite Hrow. unfold field. cbn [get]. rewrite Hprog.
  rewrite programs_shown.
  destruct programs as [|p ps]; [reflexivity|].
  cbn [truthy map when]. unfold programs_cell, MAX_PROGRAMS_DISPLAY.
  change (Z.of_nat 10) with 10%Z.
  destruct (Z.ltb_spec 10 (Z.of_nat (List.length (p :: ps))));
    destruct (Nat.ltb_spec 10 (List.length (p :: ps))); try lia;
    reflexivity.
Qed.

Lemma cut_length limit d :
  String.length (cut limit d)
  = if (limit <? String.length d)%nat then (limit + 3)%nat else String.length d.
Proof.
  unfold cut. destruct (Nat.ltb_spec limit (String.length d)); [|reflexivity].
  assert (Happ : forall a b, String.length (a ++ b)
                             = (String.length a + String.length b)%nat)
    by (induction a; simpl; intros; [|rewrite IHa]; reflexivity).
  rewrite Happ, str_take_length. simpl. lia.
Qed.

(** X13: A description longer than its budget (150 characters for a package,
    200 for an option) is shown as its first characters and "...", a
    shorter one as it is; the cell has at most three characters more than
    the budget. *)
Theorem long_descriptions_are_cut fields index details d :
  d <> "" ->
  (lookup "package_description" fields = Some (PStr d) ->
   package_source_ok details (PDict fields) = true ->
   exists table,
     format_package_result_table (PDict fields) index details = Return table
     /\ rows_labelled "Description" table = [("Description", cut 150 d)])
  /\ (lookup "option_description" fields = Some (PStr d) ->
      exists table,
        format_option_result_table (PDict fields) index details = Return table
        /\ rows_labelled "Description" table = [("Description", cut 200 d)])
  /\ (forall limit,
        String.length (cut limit d)
        = if (limit <? String.length d)%nat
          then (limit + 3)%nat
          else String.length d).
Proof.
  intros Hd.
  assert (Ht : truthy (PStr d) = true)
    by (destruct d; [contradiction|reflexivity]).
  split; [|split; [|intros; apply cut_length]].
  - intros Hdesc Hok.
    pose proof (format_package_defined (PDict fields) index details) as Hdef.
    rewrite Hok in Hdef.
    destruct (format_package_result_table (PDict fields) index details)
      as [table|e] eqn:Hfmt; [|discriminate].
    exists table. split; [reflexivity|].
    destruct (package_table_rows fields index details table Hfmt)
      as [_ [_ [_ [_ [Hrow _]]]]].
    rewrite Hrow. unfold field. cbn [get]. rewrite Hdesc, Ht. reflexivity.
  - intros Hdesc.
    pose proof (format_option_defined (PDict fields) index details) as Hdef.
    assert (Hok : option_source_ok (PDict fields) = true)
      by (unfold option_source_ok, field, cell_ok; cbn [get is_dict andb];
          rewrite Hdesc; apply orb_true_r).
    rewrite Hok in Hdef.
    destruct (format_option_result_table (PDict fields) index details)
      as [table|e] eqn:Hfmt; [|discriminate].
    exists table. split; [reflexivity|].
    destruct (option_table_rows fields index details table Hfmt)
      as [_ [_ [_ Hrow]]].
    rewrite Hrow. unfold field. cbn [get]. rewrite Hdesc, Ht. reflexivity.
Qed.

(** X14: An option table has its rows in a fixed order, and Default and
    Example only with details. *)
Theorem option_rows_come_in_a_fixed_order fields index details :
  cell_ok (field (PDict fields) "option_description" (PStr "")) = true ->
  let source := PDict fields in
  exists table,
    format_option_result_table source index details = Return table
    /\ labels table
       = (["Option"]
            ++ when (truthy (field source "option_type" (PStr ""))) ["Type"]
            ++ when (truthy (field source "option_description" (PStr "")))
                 ["Description"]
            ++ when details
                 (when (truthy (field source "option_default" PNone))
                    ["Default"]
                  ++ when (truthy (field source "option_example" PNone))
                       ["Example"]))%list
    /\ rows_labelled "Option" table
       = [("Option",
           "[dim]\[" ++ str_of_int index ++ "][/dim] [bold magenta]"
             ++ str (field source "option_name" (PStr "unknown"))
             ++ "[/bold magenta]")]
    /\ rows_labelled "Type" table
       = when (truthy (field source "option_type" (PStr "")))
           [("Type",
             "[cyan]" ++ str (field source "option_type" (PStr ""))
               ++ "[/cyan]")].
Proof.
  intros Hok source. subst source.
  pose proof (format_option_defined (PDict fields) index details) as Hdef.
  unfold option_source_ok in Hdef. rewrite Hok in Hdef.
  destruct (format_option_result_table (PDict fields) index details)
    as [table|e] eqn:Hfmt; [|discriminate].
  exists table. split; [reflexivity|].
  destruct (option_table_rows fields index details table Hfmt)
    as [Hlabels [Hname [Htype _]]].
  split; [exact Hlabels|]. split; [exact Hname|exact Htype].
Qed.

(** X22: With details, the License row joins the first three licence
    names and the Maintainers row the names of the first three maintainers,
    a maintainer without a name being shown by the e-mail address. *)
Theorem details_rows_show_three_at_most fields index licenses maintainers :
  lookup "package_license_set" fields = Some (PList (map PStr licenses)) ->
  lookup "package_maintainers" fields = Some (PList maintainers) ->
  package_source_ok true (PDict fields) = true ->
  exists table,
    format_package_result_table (PDict fields) index true = Return table
    /\ rows_labelled "License" table
       = match licenses with
         | [] => []
         | _ => [("License",
                  "[magenta]" ++ join ", " (firstn 3 licenses) ++ "[/magenta]")]
         end
    /\ rows_labelled "Maintainers" table
       = match maintainers with
         | [] => []
         | _ => [("Maintainers",
                  "[cyan]"
                    ++ join ", " (map maintainer_name (firstn 3 maintainers))
                    ++ "[/cyan]")]
         end
    /\ (forall m email,
          lookup "name" m = None -> lookup "email" m = Some (PStr email) ->
          maintainer_name (PDict m) = email).
Proof.
  intros Hlic Hmaint Hok.
  pose proof (format_package_defined (PDict fields) index true) as Hdef.
  rewrite Hok in Hdef.
  destruct (format_package_result_table (PDict fields) index true)
    as [table|e] eqn:Hfmt; [|discriminate].
  exists table. split; [reflexivity|].
  destruct (package_table_rows fields index true table Hfmt)
    as [_ [_ [_ [_ [_ [_ [_ [Hlicense Hmaintainers]]]]]]]].
  unfold package_source_ok, field in Hok. cbn [get negb orb] in Hok.
  rewrite Hmaint in Hok.
  apply andb_true_iff in Hok. destruct Hok as [_ Hok].
  apply andb_true_iff in Hok. destruct Hok as [_ Hms].
  split; [|split].
  - rewrite Hlicense. unfold field. cbn [get]. rewrite Hlic.
    rewrite join_first_strs. destruct licenses; reflexivity.
  - rewrite Hmaintainers. unfold field. cbn [get]. rewrite Hmaint.
    destruct maintainers as [|m ms]; [reflexivity|].
    unfold maintainers_ok in Hms. cbn [truthy negb orb] in Hms.
    cbn [slice_to iter bind truthy when].
    rewrite (maintainer_names _ Hms). reflexivity.
  - intros m email Hname Hemail.
    unfold maintainer_name, field. cbn [get]. rewrite Hname, Hemail.
    reflexivity.
Qed.

End WithBuiltins.

(** A package with one program and no description. *)
Lemma package_rows_come_in_a_fixed_order_witness :
  exists table,
    @format_package_result_table sample_builtins
      (PDict [("package_attr_name", PStr "hello");
              ("package_programs", PList [PStr "hello"])]) 1 false
    = Return table
    /\ labels table = ["Package"; "Programs"; "Install"; ""].
Proof.
  destruct (@package_rows_come_in_a_fixed_order sample_builtins
              [("package_attr_name", PStr "hello");
               ("package_programs", PList [PStr "hello"])] 1 false eq_refl)
    as [table [Hfmt [Hlabels _]]].
  exists table. split; [exact Hfmt|exact Hlabels].
Defined.

(** Eleven programs: ten are listed and one more is counted. *)
Lemma programs_row_lists_ten_at_most_witness :
  exists table,
    @format_package_result_table sample_builtins
      (PDict [("package_programs",
               PList (map PStr ["a"; "b"; "c"; "d"; "e"; "f"; "g"; "h"; "i";
                                "j"; "k"]))]) 1 false
    = Return table
    /\ rows_labelled "Programs" table
       = [("Programs", "[green]a b c d e f g h i j ... (+1 more)[/green]")].
Proof.
  destruct (@programs_row_lists_ten_at_most sample_builtins
              [("package_programs",
                PList (map PStr ["a"; "b"; "c"; "d"; "e"; "f"; "g"; "h"; "i";
                                 "j"; "k"]))] 1 false
              ["a"; "b"; "c"; "d"; "e"; "f"; "g"; "h"; "i"; "j"; "k"]
              eq_refl eq_refl)
    as [table [Hfmt [Hrow _]]].
  exists table. split; [exact Hfmt|exact Hrow].
Defined.

(** A short option description is shown whole. *)
Lemma long_descriptions_are_cut_witness :
  exists table,
    @format_option_result_table sample_builtins
      (PDict [("option_description", PStr "Whether to enable it.")]) 1 false
    = Return table
    /\ rows_labelled "Description" table
       = [("Description", "Whether to enable it.")].
Proof.
  exact (proj1 (proj2
           (@long_descriptions_are_cut sample_builtins
              [("option_description", PStr "Whether to enable it.")] 1 false
              "Whether to enable it." ltac:(discriminate)))
           eq_refl).
Defined.

(** An option with a type, rendered with details. *)
Lemma option_rows_come_in_a_fixed_order_witness :
  exists table,
    @format_option_result_table sample_builtins
      (PDict [("option_name", PStr "services.a.enable");
              ("option_type", PStr "boolean");
              ("option_example", PBool true)]) 1 true
    = Return table
    /\ labels table = ["Option"; "Type"; "Example"].
Proof.
  destruct (@option_rows_come_in_a_fixed_order sample_builtins
              [("option_name", PStr "services.a.enable");
               ("option_type", PStr "boolean");
               ("option_example", PBool true)] 1 true eq_refl)
    as [table [Hfmt [Hlabels _]]].
  exists table. split; [exact Hfmt|exact Hlabels].
Defined.

(** Four licences and two maintainers, one of them without a name. *)
Lemma details_rows_show_three_at_most_witness :
  exists table,
    @format_package_result_table sample_builtins
      (PDict [("package_license_set",
               PList (map PStr ["MIT"; "BSD"; "GPL"; "ISC"]));
              ("package_maintainers",
               PList [PDict [("name", PStr "Ann"); ("email", PStr "a@x.org")];
                      PDict [("email", PStr "b@x.org")]])]) 1 true
    = Return table
    /\ rows_labelled "License" table
       = [("License", "[magenta]MIT, BSD, GPL[/magenta]")]
    /\ rows_labelled "Maintainers" table
       = [("Maintainers", "[cyan]Ann, b@x.org[/cyan]")].
Proof.
  destruct (@details_rows_show_three_at_most sample_builtins
              [("package_license_set",
                PList (map PStr ["MIT"; "BSD"; "GPL"; "ISC"]));
               ("package_maintainers",
                PList [PDict [("name", PStr "Ann"); ("email", PStr "a@x.org")];
                       PDict [("email", PStr "b@x.org")]])] 1
              ["MIT"; "BSD"; "GPL"; "ISC"]
              [PDict [("name", PStr "Ann"); ("email", PStr "a@x.org")];
               PDict [("email", PStr "b@x.org")]]
              eq_refl eq_refl eq_refl)
    as [table [Hfmt [Hlicense [Hmaintainers _]]]].
  exists table. split; [exact Hfmt|]. split; [exact Hlicense|exact Hmaintainers].
Defined.

End TableFacts.

(** ** What a table-mode run displays *)

Module DisplayFacts.

Import Formatter Observe Views FormatterRaises FormatterFacts.

Lemma shown_deliver page (r : eff renderable unit) :
  completes (snd r) = true -> shown (effects (deliver page r)) = fst r.
Proof.
  destruct r as [printed [u|e]]; [intros _|discriminate].
  destruct page; unfold deliver; cbn.
  - apply app_nil_r.
  - apply shown_console.
Qed.

Lemma intersperse_cons {A} (sep x y : A) l :
  intersperse sep (x :: y :: l) = x :: sep :: intersperse sep (y :: l).
Proof. reflexivity. Qed.

Section WithBuiltins.
Context `{Builtins}.



(** What a table-mode run shows when rich prints the "Found" line and the
    loop gets past every hit. *)
Lemma shown_in_table_mode isatty data search_type details compact reverse
    use_pager hs total_value :
  response_hits data = Return (PList hs) -> hs <> [] ->
  response_total_value data = Return total_value ->
  printable (found_line total_value (List.length hs)) = true ->
  forallb (hit_ok search_type details) hs = true ->
  result (print_results isatty data search_type details compact false
            reverse use_pager) = Return tt
  /\ shown (effects (print_results isatty data search_type details compact
                       false reverse use_pager))
     = found_line total_value (List.length hs)
         :: fst (_render_results_loop (if reverse then rev hs else hs) 1
                   (Z.of_nat (List.length hs)) search_type details compact).
Proof.
  intros Hh Hne Htv Hfound Hok.
  pose proof (print_results_defined isatty data search_type details compact
                reverse use_pager hs total_value Hh Htv) as Hdef.
  assert (Hc : completes (result (print_results isatty data search_type
                                    details compact false reverse use_pager))
               = true).
  { rewrite Hdef. destruct hs; [contradiction|].
    rewrite Hfound, Hok. reflexivity. }
  split; [apply completes_unit, Hc|].
  destruct (print_results_table_mode isatty data search_type details compact
              reverse use_pager hs Hh Hne) as [tv [Htv' Hrun]].
  rewrite Htv in Htv'. injection Htv' as <-.
  rewrite Hrun in Hc |- *.
  destruct (deliver_pager (paging use_pager (List.length hs) isatty)
              (_render_results (PList (if reverse then rev hs else hs))
                 search_type total_value details compact)) as [_ Hd].
  rewrite Hd in Hc. rewrite (shown_deliver _ _ Hc), render_list.
  replace (List.length (if reverse then rev hs else hs)) with (List.length hs)
    by (destruct reverse; [rewrite length_rev|]; reflexivity).
  rewrite Hfound. reflexivity.
Qed.




(** X18: Whether a table-mode run raises is decided by the hits, the search
    type and [details] alone, and showing details can only add failures. *)
Theorem display_flags_do_not_change_failure isatty data search_type details
    compact reverse use_pager hs :
  response_hits data = Return (PList hs) ->
  (forall isatty' compact' reverse' use_pager',
     completes (result (print_results isatty' data search_type details compact'
                          false reverse' use_pager'))
     = completes (result (print_results isatty data search_type details compact
                            false reverse use_pager)))
  /\ (completes (result (print_results isatty data search_type true compact
                           false reverse use_pager)) = true ->
      completes (result (print_results isatty data search_type false compact
                           false reverse use_pager)) = true).
Proof.
  intros Hh. destruct (response_total_defined data _ Hh) as [tv Htv]. split.
  - intros.
    rewrite !(print_results_defined _ _ _ _ _ _ _ hs tv Hh Htv). reflexivity.
  - rewrite !(print_results_defined _ _ _ _ _ _ _ hs tv Hh Htv).
    destruct hs as [|h hs']; [intros; reflexivity|].
    rewrite !andb_true_iff, !forallb_forall. intros [Hfound Hall].
    split; [exact Hfound|].
    intros hit Hin. apply hit_ok_without_details, Hall, Hin.
Qed.

(** The table of the hit at a position of the sequence. *)
Lemma hit_tables_nth search_type details items : forall i ts k hit,
  known_type search_type = true ->
  hit_tables search_type details i items = Return ts ->
  nth_error items k = Some hit ->
  exists t,
    nth_error ts k = Some t
    /\ hit_table search_type details (i + Z.of_nat k) hit = Return (Some t).
Proof.
  induction items as [|h rest IH]; intros i ts k hit Hknown Hts Hk.
  - destruct k; discriminate.
  - simpl hit_tables in Hts.
    destruct (hit_table search_type details i h) as [t|e] eqn:Hhit;
      [|discriminate].
    pose proof (hit_table_by_type _ _ _ _ _ Hhit) as Hty.
    rewrite Hknown in Hty. destruct t as [t|]; [|discriminate].
    cbn [bind] in Hts.
    destruct (hit_tables search_type details (i + 1) rest) as [ts'|e] eqn:Hrest;
      [|discriminate].
    injection Hts as <-.
    destruct k as [|k].
    + injection Hk as <-. exists t. split; [reflexivity|].
      rewrite Z.add_0_r. exact Hhit.
    + destruct (IH (i + 1)%Z ts' k hit Hknown Hrest Hk) as [t' [Hnth Ht']].
      exists t'. split; [exact Hnth|].
      replace (i + Z.of_nat (S k))%Z with (i + 1 + Z.of_nat k)%Z by lia.
      exact Ht'.
Qed.

(** The first row of a hit's table carries the hit's number. *)
Lemma first_row_numbered search_type details i hit t :
  hit_table search_type details i hit = Return (Some t) ->
  exists cell,
    rows_labelled (name_label search_type) t = [(name_label search_type, cell)]
    /\ numbered i cell.
Proof.
  unfold hit_table, name_label.
  destruct (get hit "_source" (PDict [])) as [source|e]; [|discriminate].
  cbn [bind].
  destruct ((search_type =? "packages") || (search_type =? "flakes"))
    eqn:Hpkg.
  - assert (Hopt : (search_type =? "options") = false).
    { apply orb_true_iff in Hpkg.
      destruct Hpkg as [Hst|Hst]; apply String.eqb_eq in Hst; subst;
        reflexivity. }
    rewrite Hopt.
    destruct (format_package_result_table source i details) as [t'|e] eqn:Hfmt;
      [|discriminate].
    intros [= <-].
    destruct source; try discriminate Hfmt.
    destruct (TableFacts.package_table_rows _ _ _ _ Hfmt)
      as [_ [_ [_ [_ [_ [Hrow _]]]]]].
    rewrite Hrow. eexists. split; [reflexivity|].
    destruct (truthy _); eexists; reflexivity.
  - destruct (search_type =? "options"); [|discriminate].
    destruct (format_option_result_table source i details) as [t'|e] eqn:Hfmt;
      [|discriminate].
    intros [= <-].
    destruct source; try discriminate Hfmt.
    destruct (TableFacts.option_table_rows _ _ _ _ Hfmt) as [_ [Hrow _]].
    rewrite Hrow. eexists. split; [reflexivity|].
    eexists; reflexivity.
Qed.

(** X23: The hits are numbered from 1 in the order they are displayed:
    when rich prints the "Found" line and every hit's table is built and
    printed, the table at position [k] of the display is the table of the
    [k]-th hit of the displayed order (the reversed one under [reverse]),
    and its first row opens with the number [k + 1]. *)
Theorem hits_are_numbered_in_display_order isatty data search_type details
    compact (reverse : bool) use_pager hs total_value k hit :
  response_hits data = Return (PList hs) ->
  response_total_value data = Return total_value ->
  known_type search_type = true ->
  printable (found_line total_value (List.length hs)) = true ->
  forallb (hit_ok search_type details) hs = true ->
  nth_error (if reverse then rev hs else hs) k = Some hit ->
  exists t cell,
    nth_error (tables (shown (effects (print_results isatty data search_type
                                         details compact false reverse
                                         use_pager)))) k = Some t
    /\ hit_table search_type details (Z.of_nat k + 1) hit = Return (Some t)
    /\ rows_labelled (name_label search_type) t
       = [(name_label search_type, cell)]
    /\ numbered (Z.of_nat k + 1) cell.
Proof.
  intros Hh Htv Hknown Hfound Hok Hk.
  assert (Hne : hs <> []).
  { intros ->. destruct reverse, k; discriminate Hk. }
  destruct (shown_in_table_mode isatty data search_type details compact
              reverse use_pager hs total_value Hh Hne Htv Hfound Hok)
    as [_ Hshown].
  assert (Hok' : forallb (hit_ok search_type details)
                   (if reverse then rev hs else hs) = true)
    by (destruct reverse; [rewrite forallb_rev|]; exact Hok).
  destruct (render_loop_tables (if reverse then rev hs else hs) 1
              (Z.of_nat (List.length hs)) search_type details compact)
    as [Hc Htables].
  rewrite Hok' in Hc. specialize (Htables (completes_unit _ Hc)).
  destruct (hit_tables_nth search_type details _ 1 _ k hit Hknown Htables Hk)
    as [t [Hnth Ht]].
  replace (1 + Z.of_nat k)%Z with (Z.of_nat k + 1)%Z in Ht by lia.
  destruct (first_row_numbered _ _ _ _ _ Ht) as [cell [Hrow Hnum]].
  exists t, cell. split; [|split; [exact Ht|split; [exact Hrow|exact Hnum]]].
  rewrite Hshown. unfold found_line. cbn [tables flat_map app].
  exact Hnth.
Qed.

End WithBuiltins.




(** A hit that is not a dict fails whatever the display flags. *)
Lemma display_flags_do_not_change_failure_witness :
  completes
    (result (@print_results sample_builtins true (response 1 [PInt 7])
               "packages" false true false true (Some true)))
  = completes
      (result (@print_results sample_builtins false (response 1 [PInt 7])
                 "packages" false false false false None)).
Proof.
  exact (proj1 (@display_flags_do_not_change_failure sample_builtins false
                  (response 1 [PInt 7]) "packages" false false false None
                  [PInt 7] eq_refl)
           true true true (Some true)).
Defined.

(** Two packages shown in reverse: the second hit comes first and has
    number 1. *)
Lemma hits_are_numbered_in_display_order_witness :
  exists t,
    nth_error
      (tables (shown (effects (@print_results sample_builtins false
         (response 2 [PDict [("_source", PDict [("package_attr_name", PStr "a")])];
                      PDict [("_source", PDict [("package_attr_name", PStr "b")])]])
         "packages" false false false true None)))) 0 = Some t
    /\ rows_labelled "Package" t
       = [("Package", "[dim]\[1][/dim] [bold cyan]b[/bold cyan]")].
Proof.
  destruct (@hits_are_numbered_in_display_order sample_builtins false
              (response 2
                 [PDict [("_source", PDict [("package_attr_name", PStr "a")])];
                  PDict [("_source", PDict [("package_attr_name", PStr "b")])]])
              "packages" false false true None
              [PDict [("_source", PDict [("package_attr_name", PStr "a")])];
               PDict [("_source", PDict [("package_attr_name", PStr "b")])]]
              (PInt 2) 0%nat
              (PDict [("_source", PDict [("package_attr_name", PStr "b")])])
              eq_refl eq_refl eq_refl eq_refl eq_refl eq_refl)
    as [t [cell [Hnth [Ht _]]]].
  exists t. split; [exact Hnth|].
  injection Ht as <-. reflexivity.
Defined.

End DisplayFacts.

(** ** Responses of unusual shape *)

Module ResponseFacts.

Import Formatter Observe Views FormatterRaises FormatterFacts DisplayFacts.

Section WithBuiltins.
Context `{Builtins}.

Lemma hit_table_flakes details i hit :
  hit_table "flakes" details i hit = hit_table "packages" details i hit.
Proof. reflexivity. Qed.

Lemma render_loop_flakes items : forall i n details compact,
  _render_results_loop items i n "flakes" details compact
  = _render_results_loop items i n "packages" details compact.
Proof.
  induction items as [|hit rest IH]; intros; [reflexivity|].
  rewrite !render_loop_step, hit_table_flakes, IH. reflexivity.
Qed.

Lemma render_flakes hits total_value details compact :
  _render_results hits "flakes" total_value details compact
  = _render_results hits "packages" total_value details compact.
Proof.
  unfold _render_results.
  destruct (len hits) as [n|e]; [|reflexivity].
  rewrite !ebind_lift_return, !ebind_console_print.
  destruct (printable _); [|reflexivity].
  destruct (iter hits) as [items|e]; [|reflexivity].
  rewrite !ebind_lift_return, render_loop_flakes. reflexivity.
Qed.

(** X19: Flakes are rendered as packages are: the same response gives the same
    output under either search type. *)
Theorem flakes_are_rendered_as_packages isatty data details compact
    json_output reverse use_pager :
  print_results isatty data "flakes" details compact json_output reverse
    use_pager
  = print_results isatty data "packages" details compact json_output reverse
      use_pager.
Proof.
  unfold print_results.
  destruct json_output; [reflexivity|].
  destruct (response_hits data) as [hits|e];
    [rewrite !ebind_lift_return|reflexivity].
  destruct (response_total_value data) as [tv|e];
    [rewrite !ebind_lift_return|reflexivity].
  destruct (negb (truthy hits)); [reflexivity|].
  destruct (if reverse then reversed hits else Return hits) as [hits'|e];
    [rewrite !ebind_lift_return|reflexivity].
  destruct (match use_pager with Some b => Return b | None => _ end) as [b|e];
    [rewrite !ebind_lift_return|reflexivity].
  rewrite render_flakes. reflexivity.
Qed.

(** X20: A response without hits is "no results"; one whose "hits" is not an
    object, or that is not an object itself, raises before anything is
    printed. *)
Theorem missing_hits_mean_no_results isatty data search_type details compact
    reverse use_pager :
  let run := print_results isatty data search_type details compact false
               reverse use_pager in
  let notice :=
    ([ConsolePrint (Markup "[yellow]No results found.[/yellow]")], Return tt) in
  (is_dict data = false -> run = ([], Raise PyError))
  /\ (forall items, data = PDict items -> lookup "hits" items = None ->
        run = notice)
  /\ (forall items h, data = PDict items -> lookup "hits" items = Some h ->
        is_dict h = false -> run = ([], Raise PyError))
  /\ (forall items inner, data = PDict items ->
        lookup "hits" items = Some (PDict inner) ->
        lookup "hits" inner = None -> run = notice).
Proof.
  intros run notice. subst run notice.
  split; [|split; [|split]].
  - intros Hd. unfold print_results, response_hits.
    destruct data; try discriminate; reflexivity.
  - intros items -> Hl. apply print_results_no_hits.
    unfold response_hits. cbn [get bind]. rewrite Hl. reflexivity.
  - intros items h -> Hl Hd. unfold print_results, response_hits.
    cbn [get bind]. rewrite Hl.
    destruct h; try discriminate; reflexivity.
  - intros items inner -> Hl Hi. apply print_results_no_hits.
    unfold response_hits. cbn [get bind]. rewrite Hl. cbn [get]. rewrite Hi.
    reflexivity.
Qed.

(** X21: The total in the "Found" line: [total.value] when the total is an
    object, the total itself when it is not, and 0 when either is
    missing.  The line is the first thing displayed when rich prints it
    and the run does not page, and also in a paging run that gets to its
    end. *)
Theorem found_line_reports_the_total isatty data search_type details compact
    reverse use_pager items inner hs :
  data = PDict items ->
  lookup "hits" items = Some (PDict inner) ->
  lookup "hits" inner = Some (PList hs) -> hs <> [] ->
  let total := match lookup "total" inner with
               | None => PInt 0
               | Some (PDict total) =>
                   match lookup "value" total with
                   | Some v => v
                   | None => PInt 0
                   end
               | Some v => v
               end in
  let run := print_results isatty data search_type details compact false
               reverse use_pager in
  response_total_value data = Return total
  /\ (printable (found_line total (List.length hs)) = true ->
      paging use_pager (List.length hs) isatty = false
      \/ forallb (hit_ok search_type details) hs = true ->
      hd_error (shown (effects run))
      = Some (found_line total (List.length hs))).
Proof.
  intros -> Hl Hi Hne total run. subst run.
  assert (Hh : response_hits (PDict items) = Return (PList hs))
    by (unfold response_hits; cbn [get bind]; rewrite Hl; cbn [get];
        rewrite Hi; reflexivity).
  assert (Htv : response_total_value (PDict items) = Return total).
  { subst total. unfold response_total_value. cbn [get bind]. rewrite Hl.
    cbn [get bind].
    destruct (lookup "total" inner) as [[| | | | | |total]|]; reflexivity. }
  split; [exact Htv|].
  intros Hfound [Hconsole|Hok].
  - destruct (print_results_table_mode isatty (PDict items) search_type
                details compact reverse use_pager hs Hh Hne)
      as [tv [Htv' ->]].
    rewrite Htv in Htv'. injection Htv' as <-.
    rewrite Hconsole, render_list.
    replace (List.length (if reverse then rev hs else hs))
      with (List.length hs)
      by (destruct reverse; [rewrite length_rev|]; reflexivity).
    rewrite Hfound. unfold deliver. cbn [fst snd effects map shown flat_map].
    reflexivity.
  - destruct (shown_in_table_mode isatty (PDict items) search_type details
                compact reverse use_pager hs total Hh Hne Htv Hfound Hok)
      as [_ ->].
    reflexivity.
Qed.

End WithBuiltins.

(** The empty object is "no results". *)
Lemma missing_hits_mean_no_results_witness :
  @print_results sample_builtins false (PDict []) "packages" false false
    false false None
  = ([ConsolePrint (Markup "[yellow]No results found.[/yellow]")], Return tt).
Proof.
  exact (proj1 (proj2
           (@missing_hits_mean_no_results sample_builtins false (PDict [])
              "packages" false false false None))
           [] eq_refl eq_refl).
Defined.

(** A response without a total reports 0. *)
Lemma found_line_reports_the_total_witness :
  hd_error
    (shown (effects (@print_results sample_builtins false
                       (PDict [("hits", PDict [("hits", PList [PDict []])])])
                       "packages" false false false false None)))
  = Some (@found_line sample_builtins (PInt 0) 1).
Proof.
  exact (proj2 (@found_line_reports_the_total sample_builtins false
                  (PDict [("hits", PDict [("hits", PList [PDict []])])])
                  "packages" false false false None
                  [("hits", PDict [("hits", PList [PDict []])])]
                  [("hits", PList [PDict []])] [PDict []]
                  eq_refl eq_refl eq_refl ltac:(discriminate))
           eq_refl (or_introl eq_refl)).
Defined.

End ResponseFacts.

(** ** Runs on concrete inputs *)

Module Examples.

Import Client Formatter Cli Observe.

(** [nix-search python]: one request, to the unstable packages index, with
    the dis_max clause, size 20, from 0 and the two-key sort. *)
Example search_python :
  effects (search (fun _ _ _ _ => Response (response 0 []))
             (__init__ "https://search.nixos.org/" None None)
             "python" None None None None "unstable" "packages" 20 0)
  = [Post "https://search.nixos.org/backend/latest-44-nixos-unstable/_search"
       (PDict
          [("query", PDict [("bool", PDict [("must", PList [
             PDict [("dis_max", PDict [("queries", PList [
               PDict [("multi_match", PDict [
                 ("query", PStr "python");
                 ("type", PStr "cross_fields");
                 ("fields", package_fields)])]])])]])])]);
           ("size", PInt 20);
           ("from", PInt 0);
           ("sort", PList [by_score; by_attr_name])])
       ("aWVSALXpZv", "X8gPHnzL52wFEekuxsfQ9cSh") 30].
Proof. reflexivity. Qed.

(** No filter at all matches everything. *)
Example build_query_match_all :
  must_clauses (_build_query "" None (Some "") None None "packages")
  = [PDict [("match_all", PDict [])]].
Proof. reflexivity. Qed.

(** A transport failure: the request, a line on stderr, [sys.exit(1)]. *)
Example search_connection_error :
  let run := @main sample_builtins (fun _ _ _ _ => RequestException "timed out")
               true "python" None None None None "unstable" "packages" 20 0
               false false false false None "https://search.nixos.org" in
  exit_status (result run) = 1%Z
  /\ map (fun e => match e with
                   | ClientEffect (Stderr line) => Some line
                   | _ => None
                   end) (effects run)
     = [None; None; Some "Error making request: timed out"].
Proof. split; reflexivity. Qed.

(** A package with twelve programs and details: ten programs are listed,
    three licenses at most, and a maintainer without a name is shown by
    e-mail. *)
Example package_table :
  @format_package_result_table sample_builtins
    (PDict [("package_attr_name", PStr "coreutils");
            ("package_pversion", PStr "9.5");
            ("package_description", PStr "GNU Core Utilities");
            ("package_programs",
             PList (map PStr ["a"; "b"; "c"; "d"; "e"; "f"; "g"; "h"; "i";
                              "j"; "k"; "l"]));
            ("package_homepage", PList [PStr "https://gnu.org"]);
            ("package_license_set",
             PList (map PStr ["GPL"; "MIT"; "BSD"; "ISC"]));
            ("package_maintainers",
             PList [PDict [("name", PStr "Ann")];
                    PDict [("email", PStr "bob@example.org")]])])
    3 true
  = Return
      {| field_style := "bold cyan";
         rows :=
           [("Package",
             "[dim]\[3][/dim] [bold cyan]coreutils[/bold cyan] [dim]@[/dim] [yellow]9.5[/yellow]");
            ("Programs", "[green]a b c d e f g h i j ... (+2 more)[/green]");
            ("Description", "GNU Core Utilities");
            ("Homepage", "[link=https://gnu.org]https://gnu.org[/link]");
            ("License", "[magenta]GPL, MIT, BSD[/magenta]");
            ("Maintainers", "[cyan]Ann, bob@example.org[/cyan]");
            ("Install", "[dim]nix-env -iA nixpkgs.coreutils[/dim]");
            ("", "[dim]nix profile install nixpkgs#coreutils[/dim]")] |}.
Proof. reflexivity. Qed.

(** A hit that is not a dict stops a direct rendering after the "Found"
    line, and a paged one before the pager. *)
Example malformed_hit :
  @print_results sample_builtins false (response 1 [PInt 7]) "packages"
    false false false false None
  = ([ConsolePrint (@found_line sample_builtins (PInt 1) 1)], Raise PyError)
  /\ @print_results sample_builtins true (response 1 [PInt 7]) "packages"
       false false false false (Some true)
     = ([], Raise PyError).
Proof. split; reflexivity. Qed.

(** A description with a closing tag that has no open one: the table is
    built, rich raises on it.  A direct rendering stops after the "Found"
    line, a paged one before the pager. *)
Example unmatched_closing_tag :
  let hit := PDict [("_source",
                     PDict [("package_attr_name", PStr "nixos-rebuild");
                            ("package_description",
                             PStr "Rebuild from [/etc/nixos] now")])] in
  hit_formats "packages" false hit = true
  /\ @hit_ok wary_builtins "packages" false hit = false
  /\ @print_results wary_builtins false (response 1 [hit]) "packages"
       false false false false None
     = ([ConsolePrint (@found_line wary_builtins (PInt 1) 1)], Raise PyError)
  /\ @print_results wary_builtins true (response 1 [hit]) "packages"
       false false false false (Some true)
     = ([], Raise PyError).
Proof. repeat split; reflexivity. Qed.

End Examples.
